(** * rpy2_forecasting_with_fable: the notebook's data flow

    The notebook [rpy2_forecasting_with_fable.py] is a straight line of calls
    into R (base, dplyr, lubridate, tsibble, fabletools, distributional) and
    into the rpy2 bridge.  This development embeds the tables the notebook
    passes around (R data frames, tsibbles, pandas frames) and the calls of
    each cell in the order of the source.  What fabletools fits and
    forecasts is not computed in the notebook: [model] and [forecast] are
    parameters, and so is the interval of a distribution. *)

From Stdlib Require Import List String Ascii ZArith Lia Bool Arith DecimalString.
Import ListNotations.
Local Open Scope string_scope.

(** ** Calendar arithmetic behind [lubridate::as_datetime] and
       [tsibble::yearmonth]

    A [yearmonth] value is a calendar month; it is numbered here from
    January 1970 (month 0).  A POSIXct value is a number of seconds since
    1970-01-01 00:00:00 UTC, a pandas [datetime64[ns]] a signed 64-bit
    number of nanoseconds since the same instant. *)

Module Calendar.
Local Open Scope Z_scope.

(** Days since 1970-01-01 of the proleptic Gregorian date [y]-[m]-[d]. *)
Definition days_from_civil (y m d : Z) : Z :=
  let y' := if m <=? 2 then y - 1 else y in
  let era := y' / 400 in
  let yoe := y' - era * 400 in
  let mp := if 2 <? m then m - 3 else m + 9 in
  let doy := (153 * mp + 2) / 5 + d - 1 in
  let doe := yoe * 365 + yoe / 4 - yoe / 100 + doy in
  era * 146097 + doe - 719468.

(** The Gregorian date (year, month, day) of a day number. *)
Definition civil_from_days (z : Z) : Z * Z * Z :=
  let z' := z + 719468 in
  let era := z' / 146097 in
  let doe := z' - era * 146097 in
  let yoe := (doe - doe / 1460 + doe / 36524 - doe / 146096) / 365 in
  let doy := doe - (365 * yoe + yoe / 4 - yoe / 100) in
  let mp := (5 * doy + 2) / 153 in
  let d := doy - (153 * mp + 2) / 5 + 1 in
  let m := if mp <? 10 then mp + 3 else mp - 9 in
  let y := yoe + era * 400 in
  ((if m <=? 2 then y + 1 else y), m, d).

Definition year_of (ym : Z) : Z := 1970 + ym / 12.
Definition month_of (ym : Z) : Z := ym mod 12 + 1.

(** [lubridate::as_datetime] of a yearmonth: midnight UTC of the first day
    of the month. *)
Definition as_datetime (ym : Z) : Z :=
  86400 * days_from_civil (year_of ym) (month_of ym) 1.

(** [tsibble::yearmonth] of a POSIXct value: the month the instant falls in. *)
Definition yearmonth (secs : Z) : Z :=
  let '(y, m, _) := civil_from_days (secs / 86400) in
  (y - 1970) * 12 + (m - 1).

(** The bridge passes a POSIXct value through a Python [datetime], which
    covers the years 1 to 9999; outside, the conversion raises. *)
Definition datetime_min : Z := -62135596800.    (* 0001-01-01 00:00:00 *)
Definition datetime_max : Z := 253402300799.    (* 9999-12-31 23:59:59 *)

Definition in_datetime (secs : Z) : bool :=
  (datetime_min <=? secs) && (secs <=? datetime_max).

(** A [datetime64[ns]] is an int64; its least value stands for NaT. *)
Definition int64_min : Z := -9223372036854775808.
Definition int64_max : Z := 9223372036854775807.

(** Seconds to [datetime64[ns]]; [None] is NaT, which pandas stores for an
    instant its 64 bits cannot hold. *)
Definition to_datetime64 (secs : Z) : option Z :=
  let ns := secs * 1000000000 in
  if (int64_min <? ns) && (ns <=? int64_max) then Some ns else None.

Definition to_POSIXct (ns : Z) : Z := ns / 1000000000.

(** The months pandas can hold: October 1677 to April 2262. *)
Definition first_month : Z := -3507.
Definition last_month : Z := 3507.

End Calendar.

(** ** Errors and results

    A call into R or through the bridge either returns or raises. *)

Inductive error : Type :=
| ColumnNotFound (name : string)    (* R "object not found", pandas AttributeError *)
| DuplicateLabel (name : string)    (* pandas: the label names more than one column *)
| OutOfRange                        (* Python datetime: year out of range *)
| BadClass (fn : string)            (* [fn] has no method for the column's class *)
| NAIndex                           (* tsibble: the index holds NA *)
| NotDistinct                       (* tsibble: rows not distinct by key and index *)
| External (msg : string).          (* raised inside a library routine *)

Inductive result (A : Type) : Type :=
| Ok (a : A)
| Raise (e : error).
Arguments Ok {A} a.
Arguments Raise {A} e.

Definition rbind {A B : Type} (r : result A) (k : A -> result B) : result B :=
  match r with
  | Ok a => k a
  | Raise e => Raise e
  end.

Declare Scope result_scope.
Delimit Scope result_scope with result.
Notation "x <- r ;; k" := (rbind r (fun x => k))
  (at level 61, r at next level, right associativity) : result_scope.

(** [map] for calls that may raise, left to right, stopping at the first error. *)
Fixpoint mapR {A B : Type} (f : A -> result B) (l : list A) : result (list B) :=
  match l with
  | [] => Ok []
  | a :: t =>
      match f a with
      | Raise e => Raise e
      | Ok b => match mapR f t with
                | Raise e => Raise e
                | Ok bs => Ok (b :: bs)
                end
      end
  end.

(** ** Frames: named columns, as in an R data frame and a pandas DataFrame *)

Definition frame (C : Type) : Type := list (string * C).

Definition names {C : Type} (df : frame C) : list string := map fst df.

Fixpoint get_col {C : Type} (name : string) (df : frame C) : option C :=
  match df with
  | [] => None
  | (n, c) :: rest => if String.eqb n name then Some c else get_col name rest
  end.

(** [df$name <- c]: replaces the column of that name, or appends a new one. *)
Fixpoint set_col {C : Type} (name : string) (c : C) (df : frame C) : frame C :=
  match df with
  | [] => [(name, c)]
  | (n, c0) :: rest =>
      if String.eqb n name then (n, c) :: rest else (n, c0) :: set_col name c rest
  end.

(** Boolean indexing of one column: the entries whose mask bit is set. *)
Fixpoint mask_list {A : Type} (mask : list bool) (xs : list A) : list A :=
  match mask, xs with
  | b :: mask', x :: xs' => if b then x :: mask_list mask' xs' else mask_list mask' xs'
  | _, _ => []
  end.

Fixpoint and_mask (a b : list bool) : list bool :=
  match a, b with
  | x :: a', y :: b' => (x && y) :: and_mask a' b'
  | _, _ => []
  end.

Definition isin_str (values : list string) (x : string) : bool :=
  existsb (String.eqb x) values.

Fixpoint nodupb {A : Type} (eqb : A -> A -> bool) (l : list A) : bool :=
  match l with
  | [] => true
  | a :: t => negb (existsb (eqb a) t) && nodupb eqb t
  end.

(** *** Key and index of a row

    The key values of a row and its index value; [None] is NA (NaT in
    pandas). *)

Abbreviation key_row := (list string * option Z)%type.

Definition index_eqb (a b : option Z) : bool :=
  match a, b with
  | Some x, Some y => Z.eqb x y
  | None, None => true
  | _, _ => false
  end.

Definition key_eqb (a b : key_row) : bool :=
  (if list_eq_dec string_dec (fst a) (fst b) then true else false)
  && index_eqb (snd a) (snd b).

Definition is_NA (o : option Z) : bool :=
  match o with
  | None => true
  | Some _ => false
  end.

(** The order tsibble arranges rows in: by the key values, then by the
    index; strings compare character by character. *)
Fixpoint keys_compare (a b : list string) : comparison :=
  match a, b with
  | [], [] => Eq
  | [], _ :: _ => Lt
  | _ :: _, [] => Gt
  | x :: a', y :: b' =>
      match String.compare x y with
      | Eq => keys_compare a' b'
      | c => c
      end
  end.

Definition index_leb (a b : option Z) : bool :=
  match a, b with
  | Some x, Some y => Z.leb x y
  | None, Some _ => false
  | _, None => true
  end.

Definition row_leb (a b : key_row) : bool :=
  match keys_compare (fst a) (fst b) with
  | Lt => true
  | Eq => index_leb (snd a) (snd b)
  | Gt => false
  end.

(** Every row comes before all rows after it. *)
Fixpoint in_order (rows : list key_row) : bool :=
  match rows with
  | [] => true
  | a :: t => forallb (row_leb a) t && in_order t
  end.

(** Insertion of a numbered row into an arranged list; among equal rows the
    one inserted comes first. *)
Fixpoint insert_row (a : key_row * nat) (l : list (key_row * nat)) : list (key_row * nat) :=
  match l with
  | [] => [a]
  | b :: t => if row_leb (fst a) (fst b) then a :: b :: t else b :: insert_row a t
  end.

(** The positions of the rows, in the order the rows are arranged in. *)
Definition order_rows (rows : list key_row) : list nat :=
  map snd (fold_right insert_row [] (combine rows (seq 0 (List.length rows)))).

(** The entries of [xs] at the positions [perm], in that order. *)
Definition take {A : Type} (perm : list nat) (xs : list A) : list A :=
  flat_map (fun i => match nth_error xs i with
                     | Some x => [x]
                     | None => []
                     end) perm.

(** ** R language objects

    [rl(s)] (rpy2.robjects.rl) parses the text [s] into an unevaluated R
    expression.  The notebook passes five such texts: two calls for
    [mutate] and three model definitions. *)

#[local] Set Warnings "-register-all".

Inductive rexpr : Type :=
| Sym (name : string)
| Num (literal : string)
| Call (fn : string) (args : list rexpr)
| Assign (lhs : string) (rhs : rexpr).

Inductive token : Type :=
| TId (s : string)
| TNum (s : string)
| TLParen
| TRParen
| TComma
| TEq.

Definition is_digit (c : ascii) : bool :=
  let n := nat_of_ascii c in (48 <=? n)%nat && (n <=? 57)%nat.

Definition is_name_char (c : ascii) : bool :=
  let n := nat_of_ascii c in
  ((65 <=? n)%nat && (n <=? 90)%nat) || ((97 <=? n)%nat && (n <=? 122)%nat)
  || is_digit c || (n =? 46)%nat || (n =? 95)%nat || (n =? 58)%nat.

Definition flush (cur : string) : list token :=
  match cur with
  | EmptyString => []
  | String c _ => if is_digit c then [TNum cur] else [TId cur]
  end.

(** The tokens of a text; [cur] is the name or number being read. *)
Fixpoint lex (s : string) (cur : string) : option (list token) :=
  match s with
  | EmptyString => Some (flush cur)
  | String c rest =>
      if is_name_char c then lex rest (cur ++ String c EmptyString)
      else
        let sep (t : list token) :=
          match lex rest EmptyString with
          | Some ts => Some (flush cur ++ t ++ ts)%list
          | None => None
          end in
        match nat_of_ascii c with
        | 32 | 9 | 10 => sep []
        | 40 => sep [TLParen]
        | 41 => sep [TRParen]
        | 44 => sep [TComma]
        | 61 => sep [TEq]
        | _ => None
        end
  end.

Fixpoint parse_expr (fuel : nat) (ts : list token) : option (rexpr * list token) :=
  match fuel with
  | O => None
  | S fuel' =>
      match ts with
      | TId f :: TLParen :: rest =>
          match parse_args fuel' rest with
          | Some (args, rest') => Some (Call f args, rest')
          | None => None
          end
      | TId x :: TEq :: rest =>
          match parse_expr fuel' rest with
          | Some (rhs, rest') => Some (Assign x rhs, rest')
          | None => None
          end
      | TId x :: rest => Some (Sym x, rest)
      | TNum n :: rest => Some (Num n, rest)
      | _ => None
      end
  end
with parse_args (fuel : nat) (ts : list token) : option (list rexpr * list token) :=
  match fuel with
  | O => None
  | S fuel' =>
      match ts with
      | TRParen :: rest => Some ([], rest)
      | _ =>
          match parse_expr fuel' ts with
          | Some (e, TComma :: rest) =>
              match parse_args fuel' rest with
              | Some (es, rest') => Some (e :: es, rest')
              | None => None
              end
          | Some (e, TRParen :: rest) => Some ([e], rest)
          | _ => None
          end
      end
  end.

Definition rl (s : string) : result rexpr :=
  match lex s EmptyString with
  | None => Raise (External "rl: unexpected character")
  | Some ts =>
      match parse_expr (S (List.length ts)) ts with
      | Some (e, []) => Ok e
      | _ => Raise (External "rl: parse error")
      end
  end.


(** An argument of [model]: the R cell names its model definitions
    ([ets = ETS(...)] inside the call), the Python cells pass language
    objects by position. *)
Inductive model_arg : Type :=
| Named (name : string) (defn : rexpr)
| Positional (e : rexpr).


(** The name and the definition an argument is written with. *)
Definition written (a : model_arg) : option (string * rexpr) :=
  match a with
  | Named x d => Some (x, d)
  | Positional (Assign x d) => Some (x, d)
  | Positional _ => None
  end.

(** ** The Python cells (lines 48-137)

    The cells are a straight line of calls and two kinds of display: a cell
    ending in an expression shows it, and [print] prints.  There is no
    handler in the source, and none in this language. *)

Inductive nb (S A : Type) : Type :=
| Done (a : A)
| CallR {X : Type} (r : result X) (k : X -> nb S A)
| Display (s : S) (k : nb S A).
Arguments Done {S A} a.
Arguments CallR {S A X} r k.
Arguments Display {S A} s k.

Fixpoint run {S A : Type} (p : nb S A) : result A * list S :=
  match p with
  | Done a => (Ok a, [])
  | CallR r k =>
      match r with
      | Ok x => run (k x)
      | Raise e => (Raise e, [])
      end
  | Display s k => let (r, out) := run k in (r, s :: out)
  end.

(** A call for each element of a list, in order. *)
Fixpoint each {S A X : Type} (f : X -> result unit) (l : list X) (k : nb S A) : nb S A :=
  match l with
  | [] => k
  | x :: t => CallR (f x) (fun _ => each f t k)
  end.

Declare Scope nb_scope.
Delimit Scope nb_scope with nb.
Notation "x <- r ;; k" := (CallR r (fun x => k))
  (at level 61, r at next level, right associativity) : nb_scope.

(** The calls the Python cells make, as an interface: the object types of
    the two runtimes and every function called. *)
Record Calls : Type := mk_calls {
  T_ts : Type;          (* R tsibble, fable *)
  T_df : Type;          (* R data frame *)
  T_pdf : Type;         (* pandas DataFrame *)
  T_series : Type;      (* pandas Series *)
  T_mask : Type;        (* pandas boolean Series *)
  T_mable : Type;
  T_lang : Type;        (* R language object *)
  T_strv : Type;        (* R character vector *)
  call_import : string -> result unit;
  call_importr : string -> result unit;
  call_r : string -> result T_ts;
  call_as_data_frame : T_ts -> result T_df;
  call_rl : string -> result T_lang;
  call_mutate : T_df -> string -> T_lang -> result T_df;
  call_rpy2py : T_df -> result T_pdf;
  call_getattr : T_pdf -> string -> result T_series;
  call_isin : T_series -> list string -> result T_mask;
  call_and : T_mask -> T_mask -> result T_mask;
  call_getitem : T_pdf -> T_mask -> result T_pdf;
  call_py2rpy : T_pdf -> result T_df;
  call_StrVector : list string -> result T_strv;
  call_as_tsibble : T_df -> string -> T_strv -> result T_ts;
  call_model : T_ts -> list T_lang -> result T_mable;
  call_forecast : T_mable -> string -> result T_ts;
  call_hilo : T_ts -> nat -> result T_ts;
  call_unpack_hilo : T_ts -> string -> result T_ts;
  call_select : T_ts -> list string -> result T_ts
}.

(** What a cell displays. *)
Inductive shown (C : Calls) : Type :=
| ShownFrame (pdf : T_pdf C)      (* lines 86 and 137 *)
| Printed (ts : T_ts C).          (* line 105 *)
Arguments ShownFrame {C} pdf.
Arguments Printed {C} ts.

Definition notebook (C : Calls) : nb (shown C) (T_pdf C) :=
  (each (call_import C)
     ["rpy2.robjects"; "rpy2.robjects.packages"; "rpy2.robjects.pandas2ri";
      "rpy2.robjects.conversion"; "rpy2.robjects.lib.dplyr"; "rpy2.robjects.rl"]
  (each (call_importr C)
     ["base"; "tsibble"; "fabletools"; "fpp3"; "tsibbledata"; "distributional"]
  (aus_retail <- call_r C "tsibbledata::aus_retail" ;;
   aus_retail_r_df <- call_as_data_frame C aus_retail ;;
   e <- call_rl C "lubridate::as_datetime(Month)" ;;
   aus_retail_r_df <- call_mutate C aus_retail_r_df "Month" e ;;
   aus_retail_pdf <- call_rpy2py C aus_retail_r_df ;;
   state <- call_getattr C aus_retail_pdf "State" ;;
   in_state <- call_isin C state ["New South Wales"; "Victoria"] ;;
   industry <- call_getattr C aus_retail_pdf "Industry" ;;
   in_industry <- call_isin C industry ["Department stores"] ;;
   mask <- call_and C in_state in_industry ;;
   aus_retail_pdf <- call_getitem C aus_retail_pdf mask ;;
   Display (ShownFrame aus_retail_pdf) (
   rdf <- call_py2rpy C aus_retail_pdf ;;
   e <- call_rl C "tsibble::yearmonth(Month)" ;;
   rdf <- call_mutate C rdf "Month" e ;;
   key <- call_StrVector C ["State"; "Industry"] ;;
   rts <- call_as_tsibble C rdf "Month" key ;;
   Display (Printed rts) (
   ets <- call_rl C "ets=ETS(box_cox(Turnover, 0.3))" ;;
   arima <- call_rl C "arima = ARIMA(log(Turnover))" ;;
   snaive <- call_rl C "snaive = SNAIVE(Turnover)" ;;
   r_models <- call_model C rts [ets; arima; snaive] ;;
   r_forecast <- call_forecast C r_models "2 years" ;;
   fcst_dist <- call_hilo C r_forecast 95 ;;
   fcst_dist <- call_unpack_hilo C fcst_dist "95%" ;;
   selected <- call_select C fcst_dist
     ["State"; "Industry"; ".model"; ".mean"; "95%_lower"; "95%_upper"] ;;
   fcst_r_df <- call_as_data_frame C selected ;;
   e <- call_rl C "lubridate::as_datetime(Month)" ;;
   r_forecast_date <- call_mutate C fcst_r_df "Month" e ;;
   forecast_pdf <- call_rpy2py C r_forecast_date ;;
   Display (ShownFrame forecast_pdf) (
   Done forecast_pdf))))))%nb.

(** *** The cells between two displays, as functions of the calls

    The same calls in the same order, cut where a cell displays: up to the
    filtered table shown by line 86, from there to the tsibble printed by
    line 105, and from there to the table shown by line 137. *)

Fixpoint all_of {X : Type} (f : X -> result unit) (l : list X) : result unit :=
  match l with
  | [] => Ok tt
  | x :: t => (_ <- f x ;; all_of f t)%result
  end.

Definition cells_48_85 (C : Calls) : result (T_pdf C) :=
  (_ <- all_of (call_import C)
         ["rpy2.robjects"; "rpy2.robjects.packages"; "rpy2.robjects.pandas2ri";
          "rpy2.robjects.conversion"; "rpy2.robjects.lib.dplyr"; "rpy2.robjects.rl"] ;;
   _ <- all_of (call_importr C)
         ["base"; "tsibble"; "fabletools"; "fpp3"; "tsibbledata"; "distributional"] ;;
   aus_retail <- call_r C "tsibbledata::aus_retail" ;;
   aus_retail_r_df <- call_as_data_frame C aus_retail ;;
   e <- call_rl C "lubridate::as_datetime(Month)" ;;
   aus_retail_r_df <- call_mutate C aus_retail_r_df "Month" e ;;
   aus_retail_pdf <- call_rpy2py C aus_retail_r_df ;;
   state <- call_getattr C aus_retail_pdf "State" ;;
   in_state <- call_isin C state ["New South Wales"; "Victoria"] ;;
   industry <- call_getattr C aus_retail_pdf "Industry" ;;
   in_industry <- call_isin C industry ["Department stores"] ;;
   mask <- call_and C in_state in_industry ;;
   call_getitem C aus_retail_pdf mask)%result.

Definition cells_91_100 (C : Calls) (aus_retail_pdf : T_pdf C) : result (T_ts C) :=
  (rdf <- call_py2rpy C aus_retail_pdf ;;
   e <- call_rl C "tsibble::yearmonth(Month)" ;;
   rdf <- call_mutate C rdf "Month" e ;;
   key <- call_StrVector C ["State"; "Industry"] ;;
   call_as_tsibble C rdf "Month" key)%result.

Definition cells_112_133 (C : Calls) (rts : T_ts C) : result (T_pdf C) :=
  (ets <- call_rl C "ets=ETS(box_cox(Turnover, 0.3))" ;;
   arima <- call_rl C "arima = ARIMA(log(Turnover))" ;;
   snaive <- call_rl C "snaive = SNAIVE(Turnover)" ;;
   r_models <- call_model C rts [ets; arima; snaive] ;;
   r_forecast <- call_forecast C r_models "2 years" ;;
   fcst_dist <- call_hilo C r_forecast 95 ;;
   fcst_dist <- call_unpack_hilo C fcst_dist "95%" ;;
   selected <- call_select C fcst_dist
     ["State"; "Industry"; ".model"; ".mean"; "95%_lower"; "95%_upper"] ;;
   fcst_r_df <- call_as_data_frame C selected ;;
   e <- call_rl C "lubridate::as_datetime(Month)" ;;
   r_forecast_date <- call_mutate C fcst_r_df "Month" e ;;
   call_rpy2py C r_forecast_date)%result.

Section Tables.

(** [num] stands for the doubles of R and numpy; [dist] for the
    distribution objects of a fable.  The notebook never computes on
    either, it passes them on. *)
Context {num dist : Type}.

(** *** R columns

    In a yearmonth and in a POSIXct column [None] is NA. *)

Inductive rcolumn : Type :=
| RChr (xs : list string)           (* character *)
| RDbl (xs : list num)              (* double *)
| RMth (xs : list (option Z))       (* tsibble yearmonth *)
| RDttm (xs : list (option Z))      (* POSIXct, UTC *)
| RDist (xs : list dist)            (* distribution *)
| RHilo (xs : list (num * num)).    (* hilo: lower and upper at one level *)

Definition rlen (c : rcolumn) : nat :=
  match c with
  | RChr xs => List.length xs
  | RDbl xs => List.length xs
  | RMth xs => List.length xs
  | RDttm xs => List.length xs
  | RDist xs => List.length xs
  | RHilo xs => List.length xs
  end.

Definition rmask (mask : list bool) (c : rcolumn) : rcolumn :=
  match c with
  | RChr xs => RChr (mask_list mask xs)
  | RDbl xs => RDbl (mask_list mask xs)
  | RMth xs => RMth (mask_list mask xs)
  | RDttm xs => RDttm (mask_list mask xs)
  | RDist xs => RDist (mask_list mask xs)
  | RHilo xs => RHilo (mask_list mask xs)
  end.

Definition rtake (perm : list nat) (c : rcolumn) : rcolumn :=
  match c with
  | RChr xs => RChr (take perm xs)
  | RDbl xs => RDbl (take perm xs)
  | RMth xs => RMth (take perm xs)
  | RDttm xs => RDttm (take perm xs)
  | RDist xs => RDist (take perm xs)
  | RHilo xs => RHilo (take perm xs)
  end.

Definition data_frame : Type := frame rcolumn.

(** A tsibble: a data frame tagged with its index and key variables. *)
Record tbl_ts : Type := mk_tbl_ts {
  ts_data : data_frame;
  ts_index : string;
  ts_key : list string
}.

(** *** pandas columns

    In a [datetime64[ns]] column [None] is NaT. *)

Inductive pcolumn : Type :=
| PObj (xs : list string)              (* dtype object, holding str *)
| PFloat (xs : list num)               (* dtype float64 *)
| PDatetime (xs : list (option Z)).    (* dtype datetime64[ns] *)

Definition plen (c : pcolumn) : nat :=
  match c with
  | PObj xs => List.length xs
  | PFloat xs => List.length xs
  | PDatetime xs => List.length xs
  end.

Definition pmask (mask : list bool) (c : pcolumn) : pcolumn :=
  match c with
  | PObj xs => PObj (mask_list mask xs)
  | PFloat xs => PFloat (mask_list mask xs)
  | PDatetime xs => PDatetime (mask_list mask xs)
  end.

Definition pandas_frame : Type := frame pcolumn.

(** *** The calls of the notebook's conversion cells *)

(** [base.as_data_frame] (lines 70 and 127): drops the tsibble tags. *)
Definition as_data_frame (ts : tbl_ts) : data_frame := ts_data ts.

(** [lubridate::as_datetime] on a column. *)
Definition lubridate_as_datetime (c : rcolumn) : result rcolumn :=
  match c with
  | RMth xs => Ok (RDttm (map (option_map Calendar.as_datetime) xs))
  | RDttm xs => Ok (RDttm xs)
  | _ => Raise (BadClass "as_datetime")
  end.

(** [tsibble::yearmonth] on a column. *)
Definition tsibble_yearmonth (c : rcolumn) : result rcolumn :=
  match c with
  | RDttm xs => Ok (RMth (map (option_map Calendar.yearmonth) xs))
  | RMth xs => Ok (RMth xs)
  | _ => Raise (BadClass "yearmonth")
  end.

(** The functions the notebook's [rl] texts call. *)
Definition eval_call (fn : string) (args : list rcolumn) : result rcolumn :=
  match args with
  | [c] =>
      if String.eqb fn "lubridate::as_datetime" then lubridate_as_datetime c
      else if String.eqb fn "tsibble::yearmonth" then tsibble_yearmonth c
      else Raise (External "could not find function")
  | _ => Raise (External "could not find function")
  end.

(** Evaluation of an expression in the data mask of [df]. *)
Fixpoint eval (df : frame rcolumn) (e : rexpr) : result rcolumn :=
  match e with
  | Sym x =>
      match get_col x df with
      | Some c => Ok c
      | None => Raise (ColumnNotFound x)
      end
  | Call fn args =>
      match mapR (eval df) args with
      | Ok cs => eval_call fn cs
      | Raise e => Raise e
      end
  | Num _ => Raise (BadClass "mutate")
  | Assign _ _ => Raise (BadClass "mutate")
  end.

(** [DataFrame(df).mutate(name = e)]: evaluates [e] on [df] and assigns the
    outcome to column [name]. *)
Definition mutate (df : frame rcolumn) (name : string) (e : rexpr)
  : result (frame rcolumn) :=
  match eval df e with
  | Ok c => Ok (set_col name c df)
  | Raise err => Raise err
  end.

(** What the bridge makes of the columns the notebook never sends it: the
    double a yearmonth is stored as, and the list-like distribution and
    interval columns. *)
Variable yearmonth_double : option Z -> num.
Variable rpy2py_vctrs : rcolumn -> result pcolumn.

Definition dttm_in_datetime (o : option Z) : bool :=
  match o with
  | Some secs => Calendar.in_datetime secs
  | None => true
  end.

Definition dttm_to_datetime64 (o : option Z) : option Z :=
  match o with
  | Some secs => Calendar.to_datetime64 secs
  | None => None
  end.

(** [ro.conversion.rpy2py] under the pandas converter (lines 78 and 133).
    A POSIXct column goes through Python datetimes, which raises outside
    the years 1 to 9999, and becomes [datetime64[ns]], where an instant out
    of the 64 bits is NaT.  Any other double vector arrives as float64. *)
Definition rpy2py_col (c : rcolumn) : result pcolumn :=
  match c with
  | RChr xs => Ok (PObj xs)
  | RDbl xs => Ok (PFloat xs)
  | RDttm xs =>
      if forallb dttm_in_datetime xs then Ok (PDatetime (map dttm_to_datetime64 xs))
      else Raise OutOfRange
  | RMth xs => Ok (PFloat (map yearmonth_double xs))
  | RDist _ => rpy2py_vctrs c
  | RHilo _ => rpy2py_vctrs c
  end.

Definition rpy2py (df : data_frame) : result pandas_frame :=
  mapR (fun nc => match rpy2py_col (snd nc) with
                  | Ok c => Ok (fst nc, c)
                  | Raise e => Raise e
                  end) df.

(** [ro.conversion.py2rpy] under the pandas converter (line 92). *)
Definition py2rpy_col (c : pcolumn) : rcolumn :=
  match c with
  | PObj xs => RChr xs
  | PFloat xs => RDbl xs
  | PDatetime xs => RDttm (map (option_map Calendar.to_POSIXct) xs)
  end.

Definition py2rpy (pdf : pandas_frame) : data_frame :=
  map (fun nc => (fst nc, py2rpy_col (snd nc))) pdf.

(** [Series.isin(values)] with a list of str. *)
Definition isin (values : list string) (c : pcolumn) : list bool :=
  match c with
  | PObj xs => map (isin_str values) xs
  | PFloat xs => map (fun _ => false) xs
  | PDatetime xs => map (fun _ => false) xs
  end.

(** [pdf[mask]]: boolean indexing of every column. *)
Definition pindex (mask : list bool) (pdf : pandas_frame) : pandas_frame :=
  map (fun nc => (fst nc, pmask mask (snd nc))) pdf.

(** [pdf.name]: the column of that label.  With the label on several
    columns pandas hands back a frame, and the filter of lines 83-85 raises
    on it. *)
Definition getattr (pdf : pandas_frame) (name : string) : result pcolumn :=
  match filter (fun nc => String.eqb (fst nc) name) pdf with
  | [] => Raise (ColumnNotFound name)
  | [nc] => Ok (snd nc)
  | _ :: _ :: _ => Raise (DuplicateLabel name)
  end.

(** Lines 83-85. *)
Definition py_filter (pdf : pandas_frame) : result pandas_frame :=
  (state <- getattr pdf "State" ;;
   industry <- getattr pdf "Industry" ;;
   Ok (pindex (and_mask (isin ["New South Wales"; "Victoria"] state)
                        (isin ["Department stores"] industry)) pdf))%result.

(** *** tsibble validation *)

(** The notebook's key columns are character columns. *)
Definition chr_values (name : string) (df : data_frame) : result (list string) :=
  match get_col name df with
  | Some (RChr xs) => Ok xs
  | Some _ => Raise (BadClass "key")
  | None => Raise (ColumnNotFound name)
  end.

Definition index_values (name : string) (df : data_frame) : result (list (option Z)) :=
  match get_col name df with
  | Some (RMth xs) => Ok xs
  | Some (RDttm xs) => Ok xs
  | Some _ => Raise (BadClass "index")
  | None => Raise (ColumnNotFound name)
  end.

(** The key values of each row, column by column. *)
Fixpoint zip_keys (cols : list (list string)) (n : nat) : list (list string) :=
  match cols with
  | [] => repeat [] n
  | c :: rest => map (fun p => fst p :: snd p) (combine c (zip_keys rest n))
  end.

(** The (key, index) tuple of each row. *)
Definition key_rows (index : string) (key : list string) (df : data_frame)
  : result (list key_row) :=
  (idx <- index_values index df ;;
   ks <- mapR (fun k => chr_values k df) key ;;
   Ok (combine (zip_keys ks (List.length idx)) idx))%result.

(** The rows of [df] arranged by key and index. *)
Definition arrange (rows : list key_row) (df : data_frame) : data_frame :=
  map (fun nc => (fst nc, rtake (order_rows rows) (snd nc))) df.

(** [tsibble.as_tsibble(df, index, key)] (lines 96-100): the index must
    hold no NA and the rows must be distinct by key and index; the table
    comes back with its rows arranged by key, then index. *)
Definition as_tsibble (df : data_frame) (index : string) (key : list string)
  : result tbl_ts :=
  (rows <- key_rows index key df ;;
   if existsb is_NA (map snd rows) then Raise NAIndex
   else if nodupb key_eqb rows then Ok (mk_tbl_ts (arrange rows df) index key)
   else Raise NotDistinct)%result.

(** *** The R cell at the top of the notebook (lines 13-23) *)

(** [x %in% values] and [x == value] on a column. *)
Definition r_in (values : list string) (c : rcolumn) : list bool :=
  match c with
  | RChr xs => map (isin_str values) xs
  | _ => repeat false (rlen c)
  end.

Definition r_eq (value : string) (c : rcolumn) : list bool :=
  match c with
  | RChr xs => map (fun x => String.eqb x value) xs
  | _ => repeat false (rlen c)
  end.


(** *** fabletools and distributional

    Fitting and forecasting are fabletools' and fable's: the notebook hands
    [model] a tsibble with its model definitions and [forecast] the outcome
    with a horizon, and gets a fable back.  The interval of a distribution
    is distributional's. *)
Context {mable : Type}.
Variable fabletools_model : tbl_ts -> list model_arg -> result mable.
Variable fabletools_forecast : mable -> string -> result tbl_ts.
Variable dist_hilo : nat -> dist -> num * num.

Fixpoint dist_col (df : data_frame) : option (list dist) :=
  match df with
  | [] => None
  | (_, RDist xs) :: _ => Some xs
  | _ :: rest => dist_col rest
  end.

Definition level_name (level : nat) : string :=
  NilEmpty.string_of_uint (Nat.to_uint level) ++ "%".

(** [distributional.hilo(fable, level)] (line 124): adds the interval
    column, named after the level. *)
Definition hilo (ts : tbl_ts) (level : nat) : result tbl_ts :=
  match dist_col (ts_data ts) with
  | Some ds =>
      Ok (mk_tbl_ts (ts_data ts ++ [(level_name level, RHilo (map (dist_hilo level) ds))])%list
                    (ts_index ts) (ts_key ts))
  | None => Raise (BadClass "hilo")
  end.

Fixpoint unpack (name : string) (df : data_frame) : result data_frame :=
  match df with
  | [] => Raise (ColumnNotFound name)
  | (n, c) :: rest =>
      if String.eqb n name then
        match c with
        | RHilo xs => Ok ((name ++ "_lower", RDbl (map fst xs))
                          :: (name ++ "_upper", RDbl (map snd xs)) :: rest)
        | _ => Raise (BadClass "unpack_hilo")
        end
      else
        match unpack name rest with
        | Ok rest' => Ok ((n, c) :: rest')
        | Raise err => Raise err
        end
  end.

(** [fabletools.unpack_hilo(ts, name)] (line 125). *)
Definition unpack_hilo (ts : tbl_ts) (name : string) : result tbl_ts :=
  match unpack name (ts_data ts) with
  | Ok df => Ok (mk_tbl_ts df (ts_index ts) (ts_key ts))
  | Raise err => Raise err
  end.

Definition pick (df : data_frame) (name : string) : result (string * rcolumn) :=
  match get_col name df with
  | Some c => Ok (name, c)
  | None => Raise (ColumnNotFound name)
  end.

Definition mem_str (x : string) (l : list string) : bool := existsb (String.eqb x) l.

(** [DataFrame(ts).select(cols...)] on a tsibble (line 127): the columns
    named, then the index and the key columns that were not named, which a
    tsibble does not let go of. *)
Definition select (ts : tbl_ts) (cols : list string) : result tbl_ts :=
  (picked <- mapR (pick (ts_data ts)) cols ;;
   held <- mapR (pick (ts_data ts))
             (filter (fun v => negb (mem_str v cols)) (ts_index ts :: ts_key ts)) ;;
   Ok (mk_tbl_ts (picked ++ held)%list (ts_index ts) (ts_key ts)))%result.

(** *** The calls as the libraries answer them *)

Definition fable_calls (aus_retail : tbl_ts) : Calls :=
  {| T_ts := tbl_ts;
     T_df := data_frame;
     T_pdf := pandas_frame;
     T_series := pcolumn;
     T_mask := list bool;
     T_mable := mable;
     T_lang := rexpr;
     T_strv := list string;
     call_import := fun _ => Ok tt;
     call_importr := fun _ => Ok tt;
     call_r := fun s => if String.eqb s "tsibbledata::aus_retail" then Ok aus_retail
                        else Raise (External "object not found");
     call_as_data_frame := fun ts => Ok (as_data_frame ts);
     call_rl := rl;
     call_mutate := mutate;
     call_rpy2py := rpy2py;
     call_getattr := getattr;
     call_isin := fun c values => Ok (isin values c);
     call_and := fun a b => Ok (and_mask a b);
     call_getitem := fun pdf mask => Ok (pindex mask pdf);
     call_py2rpy := fun pdf => Ok (py2rpy pdf);
     call_StrVector := fun l => Ok l;
     call_as_tsibble := as_tsibble;
     call_model := fun ts specs => fabletools_model ts (map Positional specs);
     call_forecast := fabletools_forecast;
     call_hilo := hilo;
     call_unpack_hilo := unpack_hilo;
     call_select := select |}.

(** The cells of the notebook one by one, as functions of what they read. *)

(** Lines 70-78: tsibble to pandas. *)
Definition to_pandas (ts : tbl_ts) : result pandas_frame :=
  (e <- rl "lubridate::as_datetime(Month)" ;;
   df <- mutate (as_data_frame ts) "Month" e ;;
   rpy2py df)%result.

(** Lines 91-100: pandas to tsibble. *)
Definition to_tsibble (pdf : pandas_frame) : result tbl_ts :=
  (e <- rl "tsibble::yearmonth(Month)" ;;
   df <- mutate (py2rpy pdf) "Month" e ;;
   as_tsibble df "Month" ["State"; "Industry"])%result.

(** Lines 70-100: the table the Python cells hand to [fabletools.model]. *)
Definition python_rts (aus_retail : tbl_ts) : result tbl_ts :=
  (pdf <- to_pandas aus_retail ;;
   pdf' <- py_filter pdf ;;
   to_tsibble pdf')%result.

(** Lines 112-117: the arguments of [fabletools.model] after the table. *)
Definition python_model_args : result (list model_arg) :=
  (specs <- mapR rl ["ets=ETS(box_cox(Turnover, 0.3))"; "arima = ARIMA(log(Turnover))";
                     "snaive = SNAIVE(Turnover)"] ;;
   Ok (map Positional specs))%result.

(** Lines 124-133: from the fable to the pandas table shown last. *)
Definition shown_of (r_forecast : tbl_ts) : result pandas_frame :=
  (fcst_dist <- hilo r_forecast 95 ;;
   fcst_dist <- unpack_hilo fcst_dist "95%" ;;
   selected <- select fcst_dist
     ["State"; "Industry"; ".model"; ".mean"; "95%_lower"; "95%_upper"] ;;
   e <- rl "lubridate::as_datetime(Month)" ;;
   r_forecast_date <- mutate (as_data_frame selected) "Month" e ;;
   rpy2py r_forecast_date)%result.

(** Lines 70-133. *)
Definition forecast_pdf (aus_retail : tbl_ts) : result pandas_frame :=
  (rts <- python_rts aus_retail ;;
   args <- python_model_args ;;
   r_models <- fabletools_model rts args ;;
   r_forecast <- fabletools_forecast r_models "2 years" ;;
   shown_of r_forecast)%result.




(** *** Row views

    A table read row by row: every row lists its cells by column name. *)

Inductive value : Type :=
| VStr (s : string)
| VNum (x : num)
| VMth (m : option Z)         (* yearmonth *)
| VDttm (secs : option Z)     (* POSIXct *)
| VNs (ns : option Z)         (* datetime64[ns] *)
| VDist (d : dist)
| VHilo (lower upper : num).

Definition rcells (c : rcolumn) : list value :=
  match c with
  | RChr xs => map VStr xs
  | RDbl xs => map VNum xs
  | RMth xs => map VMth xs
  | RDttm xs => map VDttm xs
  | RDist xs => map VDist xs
  | RHilo xs => map (fun lu => VHilo (fst lu) (snd lu)) xs
  end.

Definition pcells (c : pcolumn) : list value :=
  match c with
  | PObj xs => map VStr xs
  | PFloat xs => map VNum xs
  | PDatetime xs => map VNs xs
  end.

Definition row : Type := frame value.

(** The first [n] rows of a frame of cell lists. *)
Fixpoint rows_of (cols : frame (list value)) (n : nat) : list row :=
  match cols with
  | [] => repeat [] n
  | (name, cs) :: rest =>
      map (fun p => (name, fst p) :: snd p) (combine cs (rows_of rest n))
  end.

Definition pview (pdf : pandas_frame) : frame (list value) :=
  map (fun nc => (fst nc, pcells (snd nc))) pdf.

Definition rview (df : data_frame) : frame (list value) :=
  map (fun nc => (fst nc, rcells (snd nc))) df.

Definition pnrow (pdf : pandas_frame) : nat :=
  match pdf with
  | [] => 0
  | (_, c) :: _ => plen c
  end.

Definition rnrow (df : data_frame) : nat :=
  match df with
  | [] => 0
  | (_, c) :: _ => rlen c
  end.

Definition prows (pdf : pandas_frame) : list row := rows_of (pview pdf) (pnrow pdf).

Definition rrows (df : data_frame) : list row := rows_of (rview df) (rnrow df).

(** A frame is rectangular: every column has the frame's length. *)
Definition rectangular (pdf : pandas_frame) : Prop :=
  Forall (fun nc => plen (snd nc) = pnrow pdf) pdf.

Definition rrectangular (df : data_frame) : Prop :=
  Forall (fun nc => rlen (snd nc) = rnrow df) df.

(** The filter of lines 83-85, and of lines 14-17, read on one row. *)
Definition row_matches (r : row) : bool :=
  match get_col "State" r, get_col "Industry" r with
  | Some (VStr st), Some (VStr ind) =>
      isin_str ["New South Wales"; "Victoria"] st && isin_str ["Department stores"] ind
  | _, _ => false
  end.

(** Every column but [Month]. *)
Definition others {C : Type} (df : frame C) : frame C :=
  filter (fun nc => negb (String.eqb (fst nc) "Month")) df.

(** ** Properties *)

(** *** Lists, masks and results *)

Lemma mask_list_map {A B : Type} (f : A -> B) (m : list bool) (xs : list A) :
  mask_list m (map f xs) = map f (mask_list m xs).
Proof.
  revert xs; induction m as [|b m IH]; intros [|x xs]; simpl; try reflexivity.
  destruct b; simpl; now rewrite IH.
Qed.

Lemma mask_list_combine {A B : Type} (m : list bool) (a : list A) (b : list B) :
  mask_list m (combine a b) = combine (mask_list m a) (mask_list m b).
Proof.
  revert a b; induction m as [|x m IH]; intros [|a0 a] [|b0 b]; simpl; try reflexivity.
  - now rewrite combine_nil.
  - destruct x; simpl; now rewrite IH.
Qed.

Lemma mask_list_nil_r {A : Type} (m : list bool) : mask_list m (@nil A) = [].
Proof. destruct m; reflexivity. Qed.

(** How many of the first [n] entries a mask keeps. *)
Definition kept (m : list bool) (n : nat) : nat :=
  List.length (mask_list m (repeat tt n)).

Lemma mask_list_repeat {A : Type} (x : A) (m : list bool) (n : nat) :
  mask_list m (repeat x n) = repeat x (kept m n).
Proof.
  unfold kept. revert n; induction m as [|b m IH]; intros [|n]; simpl; try reflexivity.
  destruct b; simpl; now rewrite IH.
Qed.

Lemma mask_list_length {A : Type} (m : list bool) (xs : list A) :
  List.length (mask_list m xs) = kept m (List.length xs).
Proof.
  unfold kept. revert xs; induction m as [|b m IH]; intros [|x xs]; simpl; try reflexivity.
  destruct b; simpl; now rewrite IH.
Qed.

Lemma mask_list_filter {A : Type} (P : A -> bool) (l : list A) :
  mask_list (map P l) l = filter P l.
Proof.
  induction l as [|a l IH]; simpl; [reflexivity|].
  destruct (P a); now rewrite IH.
Qed.

Lemma mask_list_In {A : Type} (m : list bool) (xs : list A) (x : A) :
  In x (mask_list m xs) -> In x xs.
Proof.
  revert xs; induction m as [|b m IH]; intros [|y xs]; simpl; try tauto.
  destruct b; simpl; intros H; [destruct H as [H|H]|]; auto.
Qed.

Lemma mask_list_NoDup {A : Type} (m : list bool) (xs : list A) :
  NoDup xs -> NoDup (mask_list m xs).
Proof.
  revert xs; induction m as [|b m IH]; intros [|y xs] H; simpl; try constructor.
  inversion H as [|? ? Hn Hr]; subst.
  destruct b; [constructor|]; auto.
  intros Hin; apply Hn; eapply mask_list_In; eauto.
Qed.

Lemma mask_list_Forall {A : Type} (P : A -> Prop) (m : list bool) (xs : list A) :
  Forall P xs -> Forall P (mask_list m xs).
Proof.
  intros H. apply Forall_forall. intros x Hx. rewrite Forall_forall in H.
  apply H. eapply mask_list_In; eauto.
Qed.

Lemma map_combine_maps {A B C D : Type} (f : A -> B) (g : A -> C) (h : B -> C -> D)
    (l : list A) :
  map (fun a => h (f a) (g a)) l
  = map (fun p => h (fst p) (snd p)) (combine (map f l) (map g l)).
Proof. induction l as [|a l IH]; simpl; [reflexivity|now rewrite IH]. Qed.

Lemma map_fst_combine {A B : Type} (a : list A) (b : list B) :
  List.length a = List.length b -> map fst (combine a b) = a.
Proof.
  revert b; induction a as [|x a IH]; intros [|y b] H; simpl in *; try discriminate;
    [reflexivity|]. f_equal. apply IH. lia.
Qed.

Lemma map_snd_combine {A B : Type} (a : list A) (b : list B) :
  List.length a = List.length b -> map snd (combine a b) = b.
Proof.
  revert b; induction a as [|x a IH]; intros [|y b] H; simpl in *; try discriminate;
    [reflexivity|]. f_equal. apply IH. lia.
Qed.

Lemma filter_all {A : Type} (p : A -> bool) (l : list A) :
  (forall x, In x l -> p x = true) -> filter p l = l.
Proof.
  induction l as [|a l IH]; simpl; intros H; [reflexivity|].
  rewrite (H a) by auto. now rewrite IH by auto.
Qed.

Lemma filter_none {A : Type} (p : A -> bool) (l : list A) :
  (forall x, In x l -> p x = false) -> filter p l = [].
Proof.
  induction l as [|a l IH]; simpl; intros H; [reflexivity|].
  rewrite (H a) by auto. now rewrite IH by auto.
Qed.

(** *** Columns by name *)

Lemma get_col_In {C : Type} (name : string) (df : frame C) (c : C) :
  get_col name df = Some c -> In (name, c) df.
Proof.
  induction df as [|[n c0] rest IH]; simpl; [discriminate|].
  destruct (String.eqb_spec n name) as [->|Hne].
  - intros [= ->]. now left.
  - intros H. right. auto.
Qed.

Lemma get_col_None {C : Type} (name : string) (df : frame C) :
  ~ In name (names df) -> get_col name df = None.
Proof.
  induction df as [|[n c0] rest IH]; simpl; [reflexivity|].
  intros H. destruct (String.eqb_spec n name) as [->|Hne]; [tauto|].
  apply IH. tauto.
Qed.

Lemma get_col_map {C D : Type} (g : C -> D) (name : string) (df : frame C) :
  get_col name (map (fun nc => (fst nc, g (snd nc))) df)
  = option_map g (get_col name df).
Proof.
  induction df as [|[n c] rest IH]; simpl; [reflexivity|].
  destruct (String.eqb n name); [reflexivity|exact IH].
Qed.

Lemma names_map {C D : Type} (g : C -> D) (df : frame C) :
  names (map (fun nc => (fst nc, g (snd nc))) df) = names df.
Proof. unfold names. rewrite map_map. reflexivity. Qed.

Lemma set_col_map {C D : Type} (g : C -> D) (name : string) (c : C) (df : frame C) :
  set_col name (g c) (map (fun nc => (fst nc, g (snd nc))) df)
  = map (fun nc => (fst nc, g (snd nc))) (set_col name c df).
Proof.
  induction df as [|[n c0] rest IH]; simpl; [reflexivity|].
  destruct (String.eqb n name); simpl; [reflexivity|now rewrite IH].
Qed.

Lemma names_set_col {C : Type} (name : string) (c c0 : C) (df : frame C) :
  get_col name df = Some c0 -> names (set_col name c df) = names df.
Proof.
  unfold names. induction df as [|[n c1] rest IH]; simpl; [discriminate|].
  destruct (String.eqb n name); simpl; [reflexivity|].
  intros H. now rewrite IH.
Qed.

Lemma get_col_set_col {C : Type} (name : string) (c : C) (df : frame C) :
  get_col name (set_col name c df) = Some c.
Proof.
  induction df as [|[n c1] rest IH]; simpl.
  - now rewrite String.eqb_refl.
  - destruct (String.eqb n name) eqn:E; simpl; rewrite E; [reflexivity|exact IH].
Qed.

Lemma get_col_set_col_other {C : Type} (name name' : string) (c : C) (df : frame C) :
  name <> name' -> get_col name' (set_col name c df) = get_col name' df.
Proof.
  intros Hne. induction df as [|[n c0] rest IH]; simpl.
  - destruct (String.eqb_spec name name'); [contradiction|reflexivity].
  - destruct (String.eqb_spec n name) as [->|Hn]; simpl.
    + destruct (String.eqb_spec name name'); [contradiction|reflexivity].
    + destruct (String.eqb n name'); [reflexivity|exact IH].
Qed.

(** [pdf.name] on a frame whose labels are distinct is the column of that
    name; when it returns, it returns that column. *)
Lemma getattr_get_col (pdf : pandas_frame) (name : string) (c : pcolumn) :
  getattr pdf name = Ok c -> get_col name pdf = Some c.
Proof.
  unfold getattr. induction pdf as [|[n c0] rest IH]; simpl; [discriminate|].
  destruct (String.eqb n name); simpl.
  - destruct (filter _ rest) as [|? ?]; [|discriminate]. now intros [= <-].
  - exact IH.
Qed.

Lemma getattr_distinct (pdf : pandas_frame) (name : string) (c : pcolumn) :
  NoDup (names pdf) -> get_col name pdf = Some c -> getattr pdf name = Ok c.
Proof.
  unfold getattr. induction pdf as [|[n c0] rest IH]; simpl; [discriminate|].
  intros Hnd. inversion Hnd as [|? ? Hnotin Hnd']; subst.
  destruct (String.eqb_spec n name) as [->|Hne]; simpl.
  - intros [= ->]. rewrite filter_none; [reflexivity|].
    intros [n' c'] Hin; simpl. destruct (String.eqb_spec n' name) as [->|]; [|reflexivity].
    exfalso. apply Hnotin. change name with (fst (name, c')). now apply in_map.
  - now apply IH.
Qed.

Lemma filter_label_pindex (m : list bool) (pdf : pandas_frame) (name : string) :
  filter (fun nc => String.eqb (fst nc) name) (pindex m pdf)
  = pindex m (filter (fun nc => String.eqb (fst nc) name) pdf).
Proof.
  unfold pindex. induction pdf as [|[n c0] rest IH]; simpl; [reflexivity|].
  destruct (String.eqb n name); simpl; now rewrite IH.
Qed.

Lemma getattr_pindex (m : list bool) (pdf : pandas_frame) (name : string) :
  getattr (pindex m pdf) name
  = match getattr pdf name with
    | Ok c => Ok (pmask m c)
    | Raise e => Raise e
    end.
Proof.
  unfold getattr. rewrite filter_label_pindex.
  destruct (filter _ pdf) as [|[n c] [|? ?]]; reflexivity.
Qed.

(** *** Rows of a masked frame *)

Lemma rows_of_mask (m : list bool) (cols : frame (list value)) (n : nat) :
  rows_of (map (fun nc => (fst nc, mask_list m (snd nc))) cols) (kept m n)
  = mask_list m (rows_of cols n).
Proof.
  induction cols as [|[name cs] rest IH]; simpl.
  - symmetry. apply mask_list_repeat.
  - rewrite IH, mask_list_map, mask_list_combine. reflexivity.
Qed.

Lemma pcells_pmask (m : list bool) (c : pcolumn) :
  pcells (pmask m c) = mask_list m (pcells c).
Proof. destruct c; simpl; now rewrite mask_list_map. Qed.

Lemma pcells_length (c : pcolumn) : List.length (pcells c) = plen c.
Proof. destruct c; simpl; apply length_map. Qed.


Lemma rcells_length (c : rcolumn) : List.length (rcells c) = rlen c.
Proof. destruct c; simpl; apply length_map. Qed.

Lemma pview_pindex (m : list bool) (pdf : pandas_frame) :
  pview (pindex m pdf) = map (fun nc => (fst nc, mask_list m (snd nc))) (pview pdf).
Proof.
  unfold pview, pindex. rewrite !map_map. apply map_ext.
  intros [n c]; simpl. now rewrite pcells_pmask.
Qed.

Lemma pnrow_pindex (m : list bool) (pdf : pandas_frame) :
  pnrow (pindex m pdf) = kept m (pnrow pdf).
Proof.
  destruct pdf as [|[n c] rest]; simpl.
  - unfold kept; simpl. now rewrite mask_list_nil_r.
  - rewrite <- !pcells_length, pcells_pmask. apply mask_list_length.
Qed.

Lemma prows_pindex (m : list bool) (pdf : pandas_frame) :
  prows (pindex m pdf) = mask_list m (prows pdf).
Proof. unfold prows. rewrite pview_pindex, pnrow_pindex. apply rows_of_mask. Qed.

Lemma rows_of_length (cols : frame (list value)) (n : nat) :
  Forall (fun nc => List.length (snd nc) = n) cols ->
  List.length (rows_of cols n) = n.
Proof.
  induction 1 as [|[name cs] rest Hc _ IH]; simpl.
  - apply repeat_length.
  - simpl in Hc. rewrite length_map, length_combine, IH, Hc. apply Nat.min_id.
Qed.

Lemma rows_of_get_col (name : string) (cols : frame (list value)) (n : nat) cs :
  Forall (fun nc => List.length (snd nc) = n) cols ->
  get_col name cols = Some cs ->
  map (get_col name) (rows_of cols n) = map Some cs.
Proof.
  induction 1 as [|[name0 cs0] rest Hc Hrest IH]; simpl; [discriminate|].
  simpl in Hc. intros Hget.
  pose proof (rows_of_length rest n Hrest) as Hlen.
  rewrite map_map; simpl.
  destruct (String.eqb name0 name).
  - injection Hget as <-.
    rewrite <- (map_map fst Some), map_fst_combine by (transitivity n; [exact Hc | symmetry; exact Hlen]).
    reflexivity.
  - rewrite <- (map_map snd (@get_col value name)), map_snd_combine
      by (transitivity n; [exact Hc | symmetry; exact Hlen]).
    auto.
Qed.

Lemma pview_lengths (pdf : pandas_frame) :
  rectangular pdf ->
  Forall (fun nc => List.length (snd nc) = pnrow pdf) (pview pdf).
Proof.
  unfold rectangular, pview. intros H. apply Forall_map.
  revert H; apply Forall_impl. intros [n c]; simpl. now rewrite pcells_length.
Qed.

Lemma rview_lengths (df : data_frame) :
  rrectangular df ->
  Forall (fun nc => List.length (snd nc) = rnrow df) (rview df).
Proof.
  unfold rrectangular, rview. intros H. apply Forall_map.
  revert H; apply Forall_impl. intros [n c]; simpl. now rewrite rcells_length.
Qed.

Lemma get_col_pview (name : string) (pdf : pandas_frame) :
  get_col name (pview pdf) = option_map pcells (get_col name pdf).
Proof. apply (get_col_map pcells). Qed.

Lemma get_col_rview (name : string) (df : data_frame) :
  get_col name (rview df) = option_map rcells (get_col name df).
Proof. apply (get_col_map rcells). Qed.

(** The mask the notebook computes from the two columns is the row test. *)
Definition cell_test (a b : option value) : bool :=
  match a, b with
  | Some (VStr st), Some (VStr ind) =>
      isin_str ["New South Wales"; "Victoria"] st && isin_str ["Department stores"] ind
  | _, _ => false
  end.

Lemma and_mask_false_l {A : Type} (xs : list A) (b : list bool) :
  and_mask (map (fun _ => false) xs) b
  = map (fun _ => false) (combine xs b).
Proof.
  revert b; induction xs as [|x xs IH]; intros [|y b]; simpl; try reflexivity.
  now rewrite IH.
Qed.

Lemma and_mask_false_r {A : Type} (a : list bool) (ys : list A) :
  and_mask a (map (fun _ => false) ys)
  = map (fun _ => false) (combine a ys).
Proof.
  revert ys; induction a as [|x a IH]; intros [|y ys]; simpl; try reflexivity.
  now rewrite IH, andb_false_r.
Qed.

Lemma combine_map_both {A B A' B' : Type} (f : A -> A') (g : B -> B')
    (a : list A) (b : list B) :
  combine (map f a) (map g b) = map (fun p => (f (fst p), g (snd p))) (combine a b).
Proof.
  revert b; induction a as [|x a IH]; intros [|y b]; simpl; try reflexivity.
  now rewrite IH.
Qed.

Lemma const_combine {A B A' B' C : Type} (c : C)
    (a : list A) (b : list B) (a' : list A') (b' : list B') :
  List.length a = List.length a' -> List.length b = List.length b' ->
  map (fun _ => c) (combine a b) = map (fun _ => c) (combine a' b').
Proof.
  revert b a' b'; induction a as [|x a IH]; intros [|y b] [|x' a'] [|y' b'] Ha Hb;
    simpl in *; try discriminate; try reflexivity.
  f_equal. apply IH; lia.
Qed.

Lemma filter_mask_cells (st ind : pcolumn) :
  and_mask (isin ["New South Wales"; "Victoria"] st) (isin ["Department stores"] ind)
  = map (fun p => cell_test (fst p) (snd p))
        (combine (map Some (pcells st)) (map Some (pcells ind))).
Proof.
  destruct st as [xs|xs|xs]; destruct ind as [ys|ys|ys]; unfold isin, pcells;
    rewrite ?and_mask_false_l, ?and_mask_false_r.
  2-9: transitivity (map (fun _ => false) (combine xs ys));
    [ apply const_combine; rewrite ?length_map; reflexivity
    | rewrite !combine_map_both, !map_map; apply map_ext; intros [? ?]; reflexivity ].
  rewrite !combine_map_both, !map_map; simpl.
  revert ys; induction xs as [|x xs IH]; intros [|y ys]; simpl; try reflexivity.
  now rewrite IH.
Qed.

(** *** The filter of lines 83-85 *)

Lemma row_matches_spec (r : row) :
  row_matches r = true <->
  exists st, get_col "State" r = Some (VStr st)
             /\ (st = "New South Wales" \/ st = "Victoria")
             /\ get_col "Industry" r = Some (VStr "Department stores").
Proof.
  unfold row_matches, isin_str; simpl. split.
  - destruct (get_col "State" r) as [[st| | | | | |]|]; try discriminate.
    destruct (get_col "Industry" r) as [[ind| | | | | |]|]; try discriminate.
    rewrite !orb_false_r. intros H. apply andb_prop in H as [Hs Hi].
    apply String.eqb_eq in Hi. subst ind. exists st. repeat split.
    apply orb_prop in Hs as [Hs|Hs]; apply String.eqb_eq in Hs; auto.
  - intros (st & -> & Hst & ->). rewrite String.eqb_refl.
    destruct Hst as [-> | ->]; rewrite String.eqb_refl; simpl;
      now rewrite ?orb_true_r.
Qed.

Lemma py_filter_mask (pdf : pandas_frame) (st ind : pcolumn) :
  rectangular pdf ->
  get_col "State" pdf = Some st ->
  get_col "Industry" pdf = Some ind ->
  and_mask (isin ["New South Wales"; "Victoria"] st) (isin ["Department stores"] ind)
  = map row_matches (prows pdf).
Proof.
  intros Hrect Hst Hind.
  rewrite filter_mask_cells.
  pose proof (pview_lengths pdf Hrect) as Hl.
  rewrite <- (rows_of_get_col "State" (pview pdf) (pnrow pdf) (pcells st) Hl)
    by (rewrite get_col_pview, Hst; reflexivity).
  rewrite <- (rows_of_get_col "Industry" (pview pdf) (pnrow pdf) (pcells ind) Hl)
    by (rewrite get_col_pview, Hind; reflexivity).
  symmetry.
  apply (map_combine_maps (get_col "State") (get_col "Industry") cell_test).
Qed.

(** When the filter returns, its rows are the matching rows of its input. *)
Lemma py_filter_rows (pdf out : pandas_frame) :
  rectangular pdf ->
  py_filter pdf = Ok out ->
  prows out = filter row_matches (prows pdf)
  /\ exists st ind,
       getattr pdf "State" = Ok st /\ getattr pdf "Industry" = Ok ind
       /\ out = pindex (map row_matches (prows pdf)) pdf.
Proof.
  intros Hrect H. unfold py_filter in H.
  destruct (getattr pdf "State") as [st|] eqn:Est; [|discriminate].
  destruct (getattr pdf "Industry") as [ind|] eqn:Eind; [|discriminate].
  simpl in H. injection H as <-.
  rewrite (py_filter_mask pdf st ind Hrect (getattr_get_col _ _ _ Est)
             (getattr_get_col _ _ _ Eind)).
  split.
  - rewrite prows_pindex. apply mask_list_filter.
  - exists st, ind. auto.
Qed.

(** C3.  On a pandas table with distinct column labels that has the columns
    [State] and [Industry], the filter of lines 83-85 returns; the rows it
    returns are the rows of the input whose State is "New South Wales" or
    "Victoria" and whose Industry is "Department stores", in the input's
    order: every returned row has these values, and no input row that has
    them is dropped. *)
Theorem py_filter_keeps_exactly_the_matching_rows (pdf : pandas_frame) :
  rectangular pdf ->
  NoDup (names pdf) ->
  get_col "State" pdf <> None ->
  get_col "Industry" pdf <> None ->
  exists out,
    py_filter pdf = Ok out
    /\ prows out = filter row_matches (prows pdf)
    /\ Forall (fun r => exists st,
                 get_col "State" r = Some (VStr st)
                 /\ (st = "New South Wales" \/ st = "Victoria")
                 /\ get_col "Industry" r = Some (VStr "Department stores"))
              (prows out)
    /\ (forall r, In r (prows pdf) ->
          (exists st, get_col "State" r = Some (VStr st)
                      /\ (st = "New South Wales" \/ st = "Victoria")
                      /\ get_col "Industry" r = Some (VStr "Department stores")) ->
          In r (prows out)).
Proof.
  intros Hrect Hnd Hst Hind.
  destruct (get_col "State" pdf) as [st|] eqn:Est; [|congruence].
  destruct (get_col "Industry" pdf) as [ind|] eqn:Eind; [|congruence].
  assert (Hf : py_filter pdf
               = Ok (pindex (and_mask (isin ["New South Wales"; "Victoria"] st)
                                      (isin ["Department stores"] ind)) pdf)).
  { unfold py_filter.
    now rewrite (getattr_distinct _ _ _ Hnd Est), (getattr_distinct _ _ _ Hnd Eind). }
  eexists. split; [exact Hf|].
  destruct (py_filter_rows _ _ Hrect Hf) as [Hrows _].
  rewrite Hrows. split; [reflexivity|]. split.
  - apply Forall_forall. intros r Hr. apply filter_In in Hr as [_ Hr].
    now apply row_matches_spec.
  - intros r Hin Hm. apply filter_In. split; [exact Hin|].
    now apply row_matches_spec.
Qed.

(** *** The filter, applied again (lines 83-85) *)

Lemma mask_list_all_true {A : Type} (xs : list A) (m : list bool) :
  List.length m = List.length xs -> Forall (fun b => b = true) m -> mask_list m xs = xs.
Proof.
  revert xs; induction m as [|b m IH]; intros [|x xs] Hl Hall; simpl in *;
    try discriminate; [reflexivity|].
  inversion Hall as [|? ? Hb Hm]; subst. f_equal. apply IH; [lia|exact Hm].
Qed.

Lemma pmask_all_true (m : list bool) (c : pcolumn) :
  List.length m = plen c -> Forall (fun b => b = true) m -> pmask m c = c.
Proof.
  destruct c; simpl; intros Hl Hall; f_equal; now apply mask_list_all_true.
Qed.

Lemma plen_pmask (m : list bool) (c : pcolumn) : plen (pmask m c) = kept m (plen c).
Proof. destruct c; simpl; apply mask_list_length. Qed.

Lemma rectangular_pindex (m : list bool) (pdf : pandas_frame) :
  rectangular pdf -> rectangular (pindex m pdf).
Proof.
  unfold rectangular. intros H. rewrite pnrow_pindex. unfold pindex.
  apply Forall_map. revert H. apply Forall_impl.
  intros [n c]; simpl. intros <-. apply plen_pmask.
Qed.

Lemma prows_length (pdf : pandas_frame) :
  rectangular pdf -> List.length (prows pdf) = pnrow pdf.
Proof. intros H. apply rows_of_length. now apply pview_lengths. Qed.

(** X4.  Filtering a filtered table changes nothing; the filter keeps the column
    names and returns a rectangular table with at most as many rows. *)
Theorem py_filter_idempotent (pdf out : pandas_frame) :
  rectangular pdf ->
  py_filter pdf = Ok out ->
  py_filter out = Ok out
  /\ names out = names pdf
  /\ rectangular out
  /\ pnrow out <= pnrow pdf.
Proof.
  intros Hrect H.
  destruct (py_filter_rows _ _ Hrect H) as (Hrows & st & ind & Est & Eind & Hout).
  set (mask := map row_matches (prows pdf)) in *.
  assert (Hro : rectangular out) by (rewrite Hout; now apply rectangular_pindex).
  assert (Hst : getattr out "State" = Ok (pmask mask st)).
  { rewrite Hout, getattr_pindex, Est. reflexivity. }
  assert (Hind : getattr out "Industry" = Ok (pmask mask ind)).
  { rewrite Hout, getattr_pindex, Eind. reflexivity. }
  split; [|split; [|split]].
  - unfold py_filter. rewrite Hst, Hind. simpl rbind.
    rewrite (py_filter_mask _ _ _ Hro (getattr_get_col _ _ _ Hst)
               (getattr_get_col _ _ _ Hind)).
    f_equal. unfold pindex at 1.
    rewrite <- (map_id out) at 2.
    apply map_ext_in. intros [n c] Hin. simpl. f_equal.
    apply pmask_all_true.
    + rewrite length_map, (prows_length _ Hro).
      unfold rectangular in Hro. rewrite Forall_forall in Hro.
      symmetry. exact (Hro _ Hin).
    + apply Forall_map. apply Forall_forall. intros r Hr.
      rewrite Hrows in Hr. now apply filter_In in Hr.
  - rewrite Hout. unfold pindex. apply names_map.
  - exact Hro.
  - rewrite <- (prows_length _ Hro), <- (prows_length _ Hrect), Hrows.
    apply filter_length_le.
Qed.

(** *** The calendar

    A first of the month, turned into a day number and back, is the same
    month.  Within one 400-year cycle this is checked month by month; a date
    outside is reduced to its cycle. *)

Local Open Scope Z_scope.

Definition doe_of (yoe mp : Z) : Z :=
  yoe * 365 + yoe / 4 - yoe / 100 + ((153 * mp + 2) / 5 + 1 - 1).

Definition yoe_mp_of (doe : Z) : Z * Z * Z :=
  let yoe := (doe - doe / 1460 + doe / 36524 - doe / 146096) / 365 in
  let doy := doe - (365 * yoe + yoe / 4 - yoe / 100) in
  let mp := (5 * doy + 2) / 153 in
  (yoe, mp, doy - (153 * mp + 2) / 5 + 1).

Definition cycle_ok (i : Z) : bool :=
  let yoe := i / 12 in
  let mp := i mod 12 in
  let doe := doe_of yoe mp in
  match yoe_mp_of doe with
  | (a, b, c) => (a =? yoe) && (b =? mp) && (c =? 1) && (0 <=? doe) && (doe <? 146097)
  end.

Fixpoint all_below (n : nat) (p : Z -> bool) : bool :=
  match n with
  | O => true
  | S k => p (Z.of_nat k) && all_below k p
  end.

Lemma all_below_spec (n : nat) (p : Z -> bool) :
  all_below n p = true -> forall i, 0 <= i < Z.of_nat n -> p i = true.
Proof.
  induction n as [|k IH]; simpl; intros H i Hi; [lia|].
  apply andb_prop in H as [Hk Hr].
  destruct (Z.eq_dec i (Z.of_nat k)) as [->|Hne]; [exact Hk|].
  apply IH; [exact Hr|lia].
Qed.

Lemma cycle_all : all_below 4800 cycle_ok = true.
Proof. vm_compute. reflexivity. Qed.

Lemma cycle_inv (yoe mp : Z) :
  0 <= yoe < 400 -> 0 <= mp < 12 ->
  yoe_mp_of (doe_of yoe mp) = (yoe, mp, 1) /\ 0 <= doe_of yoe mp < 146097.
Proof.
  intros Hy Hm.
  pose proof (all_below_spec 4800 cycle_ok cycle_all (yoe * 12 + mp)) as H.
  assert (Hr : 0 <= yoe * 12 + mp < Z.of_nat 4800) by lia.
  specialize (H Hr). unfold cycle_ok in H.
  replace ((yoe * 12 + mp) / 12) with yoe in H by (Z.div_mod_to_equations; lia).
  replace ((yoe * 12 + mp) mod 12) with mp in H by (Z.div_mod_to_equations; lia).
  destruct (yoe_mp_of (doe_of yoe mp)) as [[a b] c].
  repeat (apply andb_prop in H as [H ?]).
  repeat match goal with
         | Hx : (_ =? _) = true |- _ => apply Z.eqb_eq in Hx
         | Hx : (_ <=? _) = true |- _ => apply Z.leb_le in Hx
         | Hx : (_ <? _) = true |- _ => apply Z.ltb_lt in Hx
         end.
  subst. split; [reflexivity|lia].
Qed.

Lemma days_from_civil_first (ym : Z) :
  let s := ym + 23638 in
  Calendar.days_from_civil (Calendar.year_of ym) (Calendar.month_of ym) 1 =
  (s / 12 / 400) * 146097 + doe_of (s / 12 mod 400) (s mod 12) - 719468.
Proof.
  intros s.
  unfold Calendar.days_from_civil, Calendar.year_of, Calendar.month_of, doe_of, s.
  assert (Hy : (if ym mod 12 + 1 <=? 2 then 1970 + ym / 12 - 1 else 1970 + ym / 12)
               = (ym + 23638) / 12).
  { destruct (Z.leb_spec (ym mod 12 + 1) 2); Z.div_mod_to_equations; lia. }
  assert (Hm : (if 2 <? ym mod 12 + 1 then ym mod 12 + 1 - 3 else ym mod 12 + 1 + 9)
               = (ym + 23638) mod 12).
  { destruct (Z.ltb_spec 2 (ym mod 12 + 1)); Z.div_mod_to_equations; lia. }
  cbv zeta. rewrite Hy, Hm.
  replace ((ym + 23638) / 12 - (ym + 23638) / 12 / 400 * 400)
    with ((ym + 23638) / 12 mod 400) by (Z.div_mod_to_equations; lia).
  reflexivity.
Qed.

Lemma civil_from_days_cycle (era doe : Z) :
  0 <= doe < 146097 ->
  Calendar.civil_from_days (era * 146097 + doe - 719468) =
  let '(yoe, mp, d) := yoe_mp_of doe in
  let m := if mp <? 10 then mp + 3 else mp - 9 in
  let y := yoe + era * 400 in
  ((if m <=? 2 then y + 1 else y), m, d).
Proof.
  intros Hd. unfold Calendar.civil_from_days, yoe_mp_of. cbv zeta.
  replace (era * 146097 + doe - 719468 + 719468) with (era * 146097 + doe) by lia.
  replace ((era * 146097 + doe) / 146097) with era by (Z.div_mod_to_equations; lia).
  replace (era * 146097 + doe - era * 146097) with doe by lia.
  reflexivity.
Qed.

Lemma yearmonth_as_datetime (ym : Z) :
  Calendar.yearmonth (Calendar.as_datetime ym) = ym.
Proof.
  unfold Calendar.yearmonth, Calendar.as_datetime.
  replace (86400 * Calendar.days_from_civil (Calendar.year_of ym) (Calendar.month_of ym) 1
           / 86400)
    with (Calendar.days_from_civil (Calendar.year_of ym) (Calendar.month_of ym) 1)
    by (Z.div_mod_to_equations; lia).
  rewrite days_from_civil_first. cbv zeta.
  set (s := ym + 23638).
  assert (Hyoe : 0 <= s / 12 mod 400 < 400) by (apply Z.mod_pos_bound; lia).
  assert (Hmp : 0 <= s mod 12 < 12) by (apply Z.mod_pos_bound; lia).
  destruct (cycle_inv _ _ Hyoe Hmp) as [Hinv Hb].
  rewrite civil_from_days_cycle by exact Hb.
  rewrite Hinv. cbv beta iota zeta.
  destruct (Z.ltb_spec (s mod 12) 10);
    match goal with |- context [?a <=? 2] => destruct (Z.leb_spec a 2) end;
    cbv beta iota zeta; unfold s in *; Z.div_mod_to_equations; lia.
Qed.

Lemma as_datetime_inj (a b : Z) :
  Calendar.as_datetime a = Calendar.as_datetime b -> a = b.
Proof.
  intros H. rewrite <- (yearmonth_as_datetime a), <- (yearmonth_as_datetime b).
  now rewrite H.
Qed.

(** The bridge on one instant: within int64 the nanoseconds, else NaT; and
    back. *)
Lemma to_datetime64_Some (secs ns : Z) :
  Calendar.to_datetime64 secs = Some ns -> ns = secs * 1000000000.
Proof.
  unfold Calendar.to_datetime64. cbv zeta.
  destruct (_ && _); [now intros [= <-]|discriminate].
Qed.

Lemma to_POSIXct_to_datetime64 (secs ns : Z) :
  Calendar.to_datetime64 secs = Some ns -> Calendar.to_POSIXct ns = secs.
Proof.
  intros H. apply to_datetime64_Some in H. subst ns.
  unfold Calendar.to_POSIXct. Z.div_mod_to_equations; lia.
Qed.

(** The months from October 1677 to April 2262 are the ones whose first
    instant pandas can hold; they are checked one by one. *)
Definition month_fits (m : Z) : bool :=
  Calendar.in_datetime (Calendar.as_datetime m)
  && match Calendar.to_datetime64 (Calendar.as_datetime m) with
     | Some _ => true
     | None => false
     end.

Lemma months_fit :
  all_below (Z.to_nat 7015) (fun i => month_fits (i - 3507)) = true.
Proof. vm_compute. reflexivity. Qed.

Lemma month_fits_range (m : Z) :
  Calendar.first_month <= m <= Calendar.last_month -> month_fits m = true.
Proof.
  unfold Calendar.first_month, Calendar.last_month. intros H.
  pose proof (all_below_spec (Z.to_nat 7015) _ months_fit (m + 3507)) as Hf.
  cbv beta in Hf. replace (m + 3507 - 3507) with m in Hf by lia.
  apply Hf. rewrite Z2Nat.id; lia.
Qed.

Example month_after_last :
  month_fits (Calendar.last_month + 1) = false
  /\ Calendar.to_datetime64 (Calendar.as_datetime 3508) = None
  /\ (Calendar.as_datetime 3508 * 1000000000 = 9225014400000000000)%Z
  /\ Calendar.civil_from_days (Calendar.as_datetime 3508 / 86400) = (2262, 5, 1)
  /\ Calendar.civil_from_days (Calendar.as_datetime Calendar.last_month / 86400)
     = (2262, 4, 1).
Proof. vm_compute. repeat split. Qed.

Example month_before_first :
  month_fits (Calendar.first_month - 1) = false
  /\ Calendar.civil_from_days (Calendar.as_datetime Calendar.first_month / 86400)
     = (1677, 10, 1).
Proof. vm_compute. repeat split. Qed.

Example datetime_bounds :
  Calendar.datetime_min = 86400 * Calendar.days_from_civil 1 1 1
  /\ Calendar.datetime_max + 1 = 86400 * Calendar.days_from_civil 10000 1 1.
Proof. vm_compute. repeat split. Qed.

Local Close Scope Z_scope.

(** A month pandas can hold (and not NA). *)
Definition pandas_month (o : option Z) : Prop :=
  exists m, o = Some m /\ (Calendar.first_month <= m <= Calendar.last_month)%Z.

(** What lines 74-78 make of a month, and what lines 92-97 make of that. *)
Definition sent_month (o : option Z) : option Z :=
  dttm_to_datetime64 (option_map Calendar.as_datetime o).

Definition back_month (o : option Z) : option Z :=
  option_map Calendar.yearmonth (option_map Calendar.to_POSIXct (sent_month o)).

Lemma back_month_cases (o : option Z) : back_month o = o \/ back_month o = None.
Proof.
  destruct o as [m|]; [|now left]. unfold back_month, sent_month; simpl.
  destruct (Calendar.to_datetime64 (Calendar.as_datetime m)) as [ns|] eqn:E; [|now right].
  left. simpl. now rewrite (to_POSIXct_to_datetime64 _ _ E), yearmonth_as_datetime.
Qed.

Lemma pandas_month_fits (o : option Z) :
  pandas_month o ->
  dttm_in_datetime (option_map Calendar.as_datetime o) = true
  /\ (exists ns, sent_month o = Some ns)
  /\ back_month o = o.
Proof.
  intros (m & -> & Hm). apply month_fits_range in Hm. unfold month_fits in Hm.
  apply andb_prop in Hm as [Hd Hn]. split; [exact Hd|].
  unfold back_month, sent_month; simpl.
  destruct (Calendar.to_datetime64 (Calendar.as_datetime m)) as [ns|] eqn:E; [|discriminate].
  split; [now exists ns|].
  simpl. now rewrite (to_POSIXct_to_datetime64 _ _ E), yearmonth_as_datetime.
Qed.

Lemma sent_month_inj (a b : option Z) :
  pandas_month a -> pandas_month b -> sent_month a = sent_month b -> a = b.
Proof.
  intros Ha Hb H.
  destruct (pandas_month_fits a Ha) as (_ & _ & <-).
  destruct (pandas_month_fits b Hb) as (_ & _ & <-).
  unfold back_month. now rewrite H.
Qed.

Lemma as_datetime_option_inj (a b : option Z) :
  option_map Calendar.as_datetime a = option_map Calendar.as_datetime b -> a = b.
Proof.
  destruct a, b; simpl; try discriminate; [|reflexivity].
  intros [= H]. f_equal. now apply as_datetime_inj.
Qed.

Lemma existsb_false {A : Type} (f : A -> bool) (l : list A) :
  existsb f l = false <-> forall x, In x l -> f x = false.
Proof.
  induction l as [|a l IH]; simpl.
  - split; [intros _ x []|reflexivity].
  - rewrite orb_false_iff, IH. split.
    + intros [Ha Hl] x [<-|Hx]; auto.
    + intros H. split; [apply H; now left|]. intros x Hx. apply H. now right.
Qed.

(** A month column without NA that survives the round trip unchanged. *)
Lemma back_months_no_NA (ms : list (option Z)) :
  existsb is_NA (map back_month ms) = false -> map back_month ms = ms.
Proof.
  induction ms as [|o ms IH]; simpl; [reflexivity|].
  rewrite orb_false_iff. intros [Ho Hms]. rewrite (IH Hms). f_equal.
  destruct (back_month_cases o) as [H|H]; [exact H|].
  rewrite H in Ho. discriminate.
Qed.

Lemma back_months_fit (ms : list (option Z)) :
  Forall pandas_month ms -> map back_month ms = ms.
Proof.
  induction 1 as [|o ms Ho _ IH]; simpl; [reflexivity|].
  rewrite IH. f_equal. apply (pandas_month_fits o Ho).
Qed.

Lemma months_in_datetime (ms : list (option Z)) :
  Forall pandas_month ms ->
  forallb dttm_in_datetime (map (option_map Calendar.as_datetime) ms) = true.
Proof.
  induction 1 as [|o ms Ho _ IH]; simpl; [reflexivity|].
  rewrite IH. now rewrite (proj1 (pandas_month_fits o Ho)).
Qed.

(** *** Arranging rows that are arranged *)

Lemma insert_row_first (a : key_row * nat) (l : list (key_row * nat)) :
  forallb (fun b => row_leb (fst a) (fst b)) l = true -> insert_row a l = a :: l.
Proof.
  destruct l as [|b t]; simpl; [reflexivity|].
  intros H. apply andb_prop in H as [-> _]. reflexivity.
Qed.

Lemma forallb_combine_fst {A B : Type} (p : A -> bool) (l : list A) (s : list B) :
  forallb p l = true -> forallb (fun b => p (fst b)) (combine l s) = true.
Proof.
  intros H. apply forallb_forall. intros [x y] Hin. simpl.
  rewrite forallb_forall in H. apply H. eapply in_combine_l; eauto.
Qed.

Lemma sort_in_order (rows : list key_row) (k : nat) :
  in_order rows = true ->
  fold_right insert_row [] (combine rows (seq k (List.length rows)))
  = combine rows (seq k (List.length rows)).
Proof.
  revert k; induction rows as [|a t IH]; intros k; simpl; [reflexivity|].
  intros H. apply andb_prop in H as [Ha Ht].
  rewrite (IH (S k) Ht). apply insert_row_first. simpl.
  now apply (forallb_combine_fst (row_leb a)).
Qed.

Lemma order_rows_in_order (rows : list key_row) :
  in_order rows = true -> order_rows rows = seq 0 (List.length rows).
Proof.
  intros H. unfold order_rows. rewrite (sort_in_order rows 0 H).
  apply map_snd_combine. now rewrite length_seq.
Qed.

Lemma skipn_nth_error {A : Type} (xs : list A) (k : nat) (x : A) :
  nth_error xs k = Some x -> skipn k xs = x :: skipn (S k) xs.
Proof.
  revert xs; induction k as [|k IH]; intros [|y xs]; simpl; try discriminate.
  - now intros [= ->].
  - intros H. now rewrite (IH xs H).
Qed.

Lemma take_seq_from {A : Type} (xs : list A) (n k : nat) :
  List.length xs <= k + n -> take (seq k n) xs = skipn k xs.
Proof.
  unfold take. revert k; induction n as [|n IH]; intros k H.
  - symmetry. apply skipn_all2. lia.
  - change (seq k (S n)) with (k :: seq (S k) n). cbn [flat_map].
    rewrite IH by lia.
    destruct (nth_error xs k) as [x|] eqn:E.
    + cbn [app]. symmetry. now apply skipn_nth_error.
    + apply nth_error_None in E. cbn [app].
      rewrite (skipn_all2 (n := k)), (skipn_all2 (n := S k)) by lia. reflexivity.
Qed.

Lemma take_seq {A : Type} (xs : list A) (n : nat) :
  List.length xs <= n -> take (seq 0 n) xs = xs.
Proof. intros H. now rewrite take_seq_from by lia. Qed.

Lemma rtake_seq (c : rcolumn) (n : nat) : rlen c <= n -> rtake (seq 0 n) c = c.
Proof. destruct c; simpl; intros H; f_equal; now apply take_seq. Qed.

Lemma in_order_mask (m : list bool) (rows : list key_row) :
  in_order rows = true -> in_order (mask_list m rows) = true.
Proof.
  revert rows; induction m as [|b m IH]; intros [|a t]; simpl; try reflexivity.
  intros H. apply andb_prop in H as [Ha Ht].
  destruct b; simpl; [|now apply IH].
  rewrite (IH t Ht), andb_true_r.
  apply forallb_forall. intros x Hx. rewrite forallb_forall in Ha.
  apply Ha. eapply mask_list_In; eauto.
Qed.

(** *** Tables of the retail kind *)

(** The classes of a table the notebook can send to pandas and get back:
    character and double columns, and the yearmonth column [Month].  The
    dataset has these: State, Industry and Series ID are character, Turnover
    is double. *)
Definition sendable_col (nc : string * rcolumn) : Prop :=
  match snd nc with
  | RChr _ => True
  | RDbl _ => True
  | RMth _ => fst nc = "Month"
  | _ => False
  end.

(** A data frame of these classes: distinct names, columns of one length. *)
Definition sendable (df : data_frame) : Prop :=
  NoDup (names df) /\ Forall sendable_col df /\ rrectangular df.

(** The rows are in tsibble's order, by key and then index. *)
Definition ordered (index : string) (key : list string) (df : data_frame) : Prop :=
  exists rows, key_rows index key df = Ok rows /\ in_order rows = true.

(** A tsibble of the retail kind: index [Month], keys [State] and
    [Industry], accepted by tsibble's validation, rows in tsibble's order. *)
Definition retail_tsibble (ts : tbl_ts) : Prop :=
  sendable (ts_data ts)
  /\ ordered "Month" ["State"; "Industry"] (ts_data ts)
  /\ as_tsibble (ts_data ts) "Month" ["State"; "Industry"] = Ok ts.

(** All months of the table are months pandas can hold. *)
Definition in_pandas_range (df : data_frame) : Prop :=
  forall ms, get_col "Month" df = Some (RMth ms) -> Forall pandas_month ms.

Lemma key_eqb_spec (a b : key_row) : key_eqb a b = true <-> a = b.
Proof.
  unfold key_eqb. destruct a as [ka ia], b as [kb ib]; simpl.
  destruct (list_eq_dec string_dec ka kb) as [->|Hne]; simpl.
  - destruct ia as [x|], ib as [y|]; simpl; try (split; [discriminate|congruence]).
    + rewrite Z.eqb_eq. split; [now intros ->|now intros [= ->]].
    + split; reflexivity.
  - split; [discriminate|]. intros [= -> _]. contradiction.
Qed.

Lemma nodupb_spec (l : list key_row) :
  nodupb key_eqb l = true <-> NoDup l.
Proof.
  induction l as [|a l IH]; simpl.
  - split; [constructor|reflexivity].
  - rewrite andb_true_iff, negb_true_iff, IH. split.
    + intros [Hn Hd]. constructor; [|exact Hd].
      intros Hin. apply not_true_iff_false in Hn. apply Hn.
      apply existsb_exists. exists a. split; [exact Hin|now apply key_eqb_spec].
    + intros H. inversion H as [|? ? Hn Hd]; subst. split; [|exact Hd].
      apply not_true_iff_false. intros He. apply existsb_exists in He as (b & Hin & Hb).
      apply key_eqb_spec in Hb. now subst b.
Qed.

Lemma zip_keys_length (ks : list (list string)) (n : nat) :
  Forall (fun k => List.length k = n) ks -> List.length (zip_keys ks n) = n.
Proof.
  induction 1 as [|k ks Hk _ IH]; simpl.
  - apply repeat_length.
  - rewrite length_map, length_combine, IH, Hk. apply Nat.min_id.
Qed.

Lemma rrectangular_In (df : data_frame) (name : string) (c : rcolumn) :
  rrectangular df -> get_col name df = Some c -> rlen c = rnrow df.
Proof.
  intros Hr Hg. unfold rrectangular in Hr. rewrite Forall_forall in Hr.
  exact (Hr _ (get_col_In _ _ _ Hg)).
Qed.

Lemma chr_values_length (df : data_frame) (key : list string) ks :
  rrectangular df ->
  mapR (fun k => chr_values k df) key = Ok ks ->
  Forall (fun k => List.length k = rnrow df) ks.
Proof.
  intros Hr. revert ks; induction key as [|k key IH]; simpl; intros ks.
  - intros [= <-]. constructor.
  - unfold chr_values at 1.
    destruct (get_col k df) as [[xs| | | | |]|] eqn:E; try discriminate.
    destruct (mapR _ key) as [rest|]; [|discriminate].
    intros [= <-]. constructor; [|now apply IH].
    exact (rrectangular_In df k _ Hr E).
Qed.

Lemma key_rows_length (df : data_frame) (index : string) (key : list string) rows :
  rrectangular df ->
  key_rows index key df = Ok rows ->
  List.length rows = rnrow df.
Proof.
  intros Hr. unfold key_rows, index_values.
  destruct (get_col index df) as [c|] eqn:Ei; [|discriminate].
  pose proof (rrectangular_In df index c Hr Ei) as Hlen.
  assert (Hgen : forall idx : list (option Z), List.length idx = rnrow df ->
            (ks <- mapR (fun k => chr_values k df) key ;;
             Ok (combine (zip_keys ks (List.length idx)) idx))%result = Ok rows ->
            List.length rows = rnrow df).
  { intros idx Hidx. destruct (mapR _ key) as [ks|] eqn:Ek; simpl; [|discriminate].
    intros [= <-]. rewrite length_combine, Hidx.
    rewrite (zip_keys_length ks (rnrow df) (chr_values_length df key ks Hr Ek)).
    apply Nat.min_id. }
  destruct c; simpl; try discriminate; simpl in Hlen; now apply Hgen.
Qed.

(** [arrange] leaves a table alone whose rows are arranged. *)
Lemma arrange_in_order (df : data_frame) (index : string) (key : list string) rows :
  rrectangular df ->
  key_rows index key df = Ok rows ->
  in_order rows = true ->
  arrange rows df = df.
Proof.
  intros Hr Hrows Hord. unfold arrange.
  rewrite (order_rows_in_order rows Hord), (key_rows_length df index key rows Hr Hrows).
  rewrite <- (map_id df) at 2. apply map_ext_in. intros [n c] Hin. simpl. f_equal.
  apply rtake_seq. unfold rrectangular in Hr. rewrite Forall_forall in Hr.
  pose proof (Hr _ Hin) as Hc. simpl in Hc. lia.
Qed.

(** Rows without NA, distinct and arranged: [as_tsibble] tags the table and
    returns it as it is. *)
Definition tidy (index : string) (key : list string) (df : data_frame) : Prop :=
  exists rows,
    key_rows index key df = Ok rows
    /\ existsb is_NA (map snd rows) = false
    /\ NoDup rows
    /\ in_order rows = true.

Lemma as_tsibble_tidy (df : data_frame) (index : string) (key : list string) :
  rrectangular df -> tidy index key df ->
  as_tsibble df index key = Ok (mk_tbl_ts df index key).
Proof.
  intros Hr (rows & Hrows & Hna & Hnd & Hord). unfold as_tsibble.
  rewrite Hrows. simpl rbind. rewrite Hna.
  apply nodupb_spec in Hnd. rewrite Hnd.
  now rewrite (arrange_in_order df index key rows Hr Hrows Hord).
Qed.

Lemma retail_tidy (ts : tbl_ts) :
  retail_tsibble ts ->
  tidy "Month" ["State"; "Industry"] (ts_data ts)
  /\ ts = mk_tbl_ts (ts_data ts) "Month" ["State"; "Industry"].
Proof.
  intros ((_ & _ & Hr) & (rows & Hrows & Hord) & Hv).
  unfold as_tsibble in Hv. rewrite Hrows in Hv. simpl rbind in Hv.
  destruct (existsb is_NA (map snd rows)) eqn:Hna; [discriminate|].
  destruct (nodupb key_eqb rows) eqn:Hnd; [|discriminate].
  rewrite (arrange_in_order _ _ _ rows Hr Hrows Hord) in Hv.
  split.
  - exists rows. repeat split; auto. now apply nodupb_spec.
  - now injection Hv as <-.
Qed.

Lemma retail_month (ts : tbl_ts) :
  retail_tsibble ts -> exists ms, get_col "Month" (ts_data ts) = Some (RMth ms).
Proof.
  intros ((_ & Hs & _) & (rows & Hrows & _) & _). unfold key_rows, index_values in Hrows.
  destruct (get_col "Month" (ts_data ts)) as [c|] eqn:E; [|discriminate].
  pose proof (get_col_In _ _ _ E) as Hin.
  rewrite Forall_forall in Hs. specialize (Hs _ Hin). unfold sendable_col in Hs.
  destruct c; simpl in *; try discriminate; try contradiction. eauto.
Qed.

Lemma retail_keys (ts : tbl_ts) :
  retail_tsibble ts ->
  exists st ind, get_col "State" (ts_data ts) = Some (RChr st)
                 /\ get_col "Industry" (ts_data ts) = Some (RChr ind).
Proof.
  intros (_ & (rows & Hrows & _) & _). unfold key_rows in Hrows.
  destruct (index_values "Month" (ts_data ts)); simpl in Hrows; [|discriminate].
  unfold chr_values in Hrows.
  destruct (get_col "State" (ts_data ts)) as [[st| | | | |]|]; try discriminate.
  destruct (get_col "Industry" (ts_data ts)) as [[ind| | | | |]|]; try discriminate.
  eauto.
Qed.

(** *** The time-series table on its way to pandas and back *)

(** What lines 74-78 make of a column of a sendable table. *)
Definition sent_col (c : rcolumn) : pcolumn :=
  match c with
  | RChr xs => PObj xs
  | RDbl xs => PFloat xs
  | RMth xs => PDatetime (map sent_month xs)
  | RDttm xs => PDatetime (map dttm_to_datetime64 xs)
  | RDist _ => PObj []
  | RHilo _ => PObj []
  end.

Definition sent (df : data_frame) : pandas_frame :=
  map (fun nc => (fst nc, sent_col (snd nc))) df.

Lemma rl_as_datetime :
  rl "lubridate::as_datetime(Month)" = Ok (Call "lubridate::as_datetime" [Sym "Month"]).
Proof. reflexivity. Qed.

Lemma rl_yearmonth :
  rl "tsibble::yearmonth(Month)" = Ok (Call "tsibble::yearmonth" [Sym "Month"]).
Proof. reflexivity. Qed.

Lemma mutate_as_datetime (df : data_frame) :
  mutate df "Month" (Call "lubridate::as_datetime" [Sym "Month"])
  = match get_col "Month" df with
    | None => Raise (ColumnNotFound "Month")
    | Some c => match lubridate_as_datetime c with
                | Ok c' => Ok (set_col "Month" c' df)
                | Raise e => Raise e
                end
    end.
Proof.
  unfold mutate; simpl. destruct (get_col "Month" df); reflexivity.
Qed.

Lemma mutate_yearmonth (df : data_frame) :
  mutate df "Month" (Call "tsibble::yearmonth" [Sym "Month"])
  = match get_col "Month" df with
    | None => Raise (ColumnNotFound "Month")
    | Some c => match tsibble_yearmonth c with
                | Ok c' => Ok (set_col "Month" c' df)
                | Raise e => Raise e
                end
    end.
Proof.
  unfold mutate; simpl. destruct (get_col "Month" df); reflexivity.
Qed.

(** Without a [Month] column every sendable column is character or double. *)
Lemma rpy2py_plain (df : data_frame) :
  Forall sendable_col df -> ~ In "Month" (names df) ->
  rpy2py df = Ok (sent df).
Proof.
  unfold rpy2py, sent.
  induction 1 as [|[n c] rest Hc _ IH]; simpl; intros Hn; [reflexivity|].
  rewrite IH by tauto.
  unfold sendable_col in *; simpl in *.
  destruct c; try reflexivity; try contradiction.
  subst n. tauto.
Qed.

(** Line 78 after line 74: the conversion raises when a month lies outside
    the years of a Python datetime, and returns otherwise. *)
Lemma rpy2py_set_month (df : data_frame) (ms : list (option Z)) :
  NoDup (names df) -> Forall sendable_col df ->
  get_col "Month" df = Some (RMth ms) ->
  rpy2py (set_col "Month" (RDttm (map (option_map Calendar.as_datetime) ms)) df)
  = if forallb dttm_in_datetime (map (option_map Calendar.as_datetime) ms)
    then Ok (sent df) else Raise OutOfRange.
Proof.
  intros Hnd Hs. revert Hnd. unfold rpy2py, sent.
  induction Hs as [|[n c] rest Hc Hrest IH]; simpl; [discriminate|].
  intros Hnd Hget. inversion Hnd as [|? ? Hnotin Hnd']; subst.
  destruct (String.eqb_spec n "Month") as [->|Hne].
  - injection Hget as ->. simpl.
    pose proof (rpy2py_plain rest Hrest Hnotin) as Hp. unfold rpy2py, sent in Hp.
    rewrite Hp. destruct (forallb _ _); [|reflexivity]. now rewrite map_map.
  - simpl. rewrite (IH Hnd' Hget).
    unfold sendable_col in Hc; simpl in Hc.
    destruct c; try contradiction; try congruence; simpl;
      destruct (forallb _ _); reflexivity.
Qed.

Lemma to_pandas_eq (ts : tbl_ts) (ms : list (option Z)) :
  sendable (ts_data ts) ->
  get_col "Month" (ts_data ts) = Some (RMth ms) ->
  to_pandas ts
  = if forallb dttm_in_datetime (map (option_map Calendar.as_datetime) ms)
    then Ok (sent (ts_data ts)) else Raise OutOfRange.
Proof.
  intros (Hnd & Hs & _) Hm. unfold to_pandas. rewrite rl_as_datetime. simpl rbind.
  rewrite mutate_as_datetime. unfold as_data_frame. rewrite Hm. simpl.
  now apply rpy2py_set_month.
Qed.


Lemma py2rpy_sent_plain (df : data_frame) :
  Forall sendable_col df -> ~ In "Month" (names df) ->
  py2rpy (sent df) = df.
Proof.
  unfold py2rpy, sent.
  induction 1 as [|[n c] rest Hc _ IH]; simpl; intros Hn; [reflexivity|].
  rewrite IH by tauto.
  unfold sendable_col in *; simpl in *.
  destruct c; try reflexivity; try contradiction.
  subst n. tauto.
Qed.

(** Back in R, the columns other than [Month] are as they were sent. *)
Lemma set_col_received (df : data_frame) (ms : list (option Z)) (c : rcolumn) :
  NoDup (names df) -> Forall sendable_col df ->
  get_col "Month" df = Some (RMth ms) ->
  set_col "Month" c (py2rpy (sent df)) = set_col "Month" c df.
Proof.
  intros Hnd Hs. revert Hnd.
  induction Hs as [|[n c0] rest Hc Hrest IH]; simpl; [discriminate|].
  intros Hnd Hget. inversion Hnd as [|? ? Hnotin Hnd']; subst.
  destruct (String.eqb_spec n "Month") as [->|Hne].
  - now rewrite (py2rpy_sent_plain rest Hrest Hnotin).
  - rewrite (IH Hnd' Hget).
    unfold sendable_col in Hc; simpl in Hc.
    destruct c0; try reflexivity; try contradiction; try congruence.
Qed.

Lemma set_col_same {C : Type} (name : string) (c : C) (df : frame C) :
  get_col name df = Some c -> set_col name c df = df.
Proof.
  induction df as [|[n c0] rest IH]; simpl; [discriminate|].
  destruct (String.eqb_spec n name) as [->|Hne].
  - now intros [= ->].
  - intros H. now rewrite IH.
Qed.

(** Lines 91-100 on what lines 70-78 sent: [as_tsibble] gets the table with
    its months as they came back. *)
Lemma to_tsibble_sent (df : data_frame) (ms : list (option Z)) :
  sendable df ->
  get_col "Month" df = Some (RMth ms) ->
  to_tsibble (sent df)
  = as_tsibble (set_col "Month" (RMth (map back_month ms)) df) "Month" ["State"; "Industry"].
Proof.
  intros (Hnd & Hs & _) Hm. unfold to_tsibble. rewrite rl_yearmonth. simpl rbind.
  rewrite mutate_yearmonth.
  unfold py2rpy at 1, sent at 1. rewrite !get_col_map, Hm.
  cbn [option_map sent_col py2rpy_col tsibble_yearmonth].
  rewrite !map_map.
  change (fun x : option Z =>
            option_map Calendar.yearmonth (option_map Calendar.to_POSIXct (sent_month x)))
    with back_month.
  now rewrite (set_col_received df ms _ Hnd Hs Hm).
Qed.

Lemma others_sent (df : data_frame) :
  Forall sendable_col df -> others (pview (sent df)) = others (rview df).
Proof.
  unfold others, pview, rview, sent.
  induction 1 as [|[n c] rest Hc _ IH]; simpl; [reflexivity|].
  destruct (String.eqb_spec n "Month") as [->|Hne]; simpl; [exact IH|].
  rewrite IH. unfold sendable_col in Hc; simpl in Hc.
  destruct c; try reflexivity; try contradiction; congruence.
Qed.


(** *** Filtering commutes with the conversions *)

Definition masked (m : list bool) (df : data_frame) : data_frame :=
  map (fun nc => (fst nc, rmask m (snd nc))) df.

Lemma sent_col_rmask (m : list bool) (c : rcolumn) :
  sent_col (rmask m c) = pmask m (sent_col c).
Proof.
  destruct c; simpl; rewrite ?mask_list_map, ?mask_list_nil_r; reflexivity.
Qed.

Lemma sent_masked (m : list bool) (df : data_frame) :
  sent (masked m df) = pindex m (sent df).
Proof.
  unfold sent, masked, pindex. rewrite !map_map. apply map_ext.
  intros [n c]; simpl. now rewrite sent_col_rmask.
Qed.

Lemma rlen_rmask (m : list bool) (c : rcolumn) : rlen (rmask m c) = kept m (rlen c).
Proof. destruct c; simpl; apply mask_list_length. Qed.

Lemma rnrow_masked (m : list bool) (df : data_frame) :
  rnrow (masked m df) = kept m (rnrow df).
Proof.
  destruct df as [|[n c] rest]; simpl.
  - unfold kept; simpl. now rewrite mask_list_nil_r.
  - apply rlen_rmask.
Qed.

Lemma rrectangular_masked (m : list bool) (df : data_frame) :
  rrectangular df -> rrectangular (masked m df).
Proof.
  unfold rrectangular. intros H. rewrite rnrow_masked. unfold masked.
  apply Forall_map. revert H. apply Forall_impl.
  intros [n c]; simpl. intros <-. apply rlen_rmask.
Qed.

Lemma sendable_masked (m : list bool) (df : data_frame) :
  sendable df -> sendable (masked m df).
Proof.
  intros (Hnd & Hs & Hr). split; [|split].
  - unfold masked. now rewrite names_map.
  - unfold masked. apply Forall_map. revert Hs. apply Forall_impl.
    intros [n c]; unfold sendable_col; simpl. destruct c; simpl; auto.
  - now apply rrectangular_masked.
Qed.



Lemma zip_keys_mask (m : list bool) (ks : list (list string)) (n : nat) :
  mask_list m (zip_keys ks n) = zip_keys (map (mask_list m) ks) (kept m n).
Proof.
  induction ks as [|k ks IH]; simpl.
  - apply mask_list_repeat.
  - now rewrite mask_list_map, mask_list_combine, IH.
Qed.

Lemma index_values_masked (m : list bool) (name : string) (df : data_frame) idx :
  index_values name df = Ok idx ->
  index_values name (masked m df) = Ok (mask_list m idx).
Proof.
  unfold index_values, masked. rewrite get_col_map.
  destruct (get_col name df) as [[]|]; simpl; try discriminate; now intros [= <-].
Qed.

Lemma chr_values_masked (m : list bool) (name : string) (df : data_frame) xs :
  chr_values name df = Ok xs ->
  chr_values name (masked m df) = Ok (mask_list m xs).
Proof.
  unfold chr_values, masked. rewrite get_col_map.
  destruct (get_col name df) as [[]|]; simpl; try discriminate; now intros [= <-].
Qed.

Lemma mapR_chr_values_masked (m : list bool) (key : list string) (df : data_frame) ks :
  mapR (fun k => chr_values k df) key = Ok ks ->
  mapR (fun k => chr_values k (masked m df)) key = Ok (map (mask_list m) ks).
Proof.
  revert ks; induction key as [|k key IH]; simpl; intros ks.
  - now intros [= <-].
  - destruct (chr_values k df) as [xs|] eqn:E; [|discriminate].
    destruct (mapR (fun k0 => chr_values k0 df) key) as [rest|]; [|discriminate].
    intros [= <-]. rewrite (chr_values_masked m k df xs E), (IH rest eq_refl).
    reflexivity.
Qed.

Lemma key_rows_masked (m : list bool) (index : string) (key : list string)
    (df : data_frame) rows :
  key_rows index key df = Ok rows ->
  key_rows index key (masked m df) = Ok (mask_list m rows).
Proof.
  unfold key_rows.
  destruct (index_values index df) as [idx|] eqn:Ei; simpl; [|discriminate].
  destruct (mapR (fun k => chr_values k df) key) as [ks|] eqn:Ek; simpl; [|discriminate].
  intros [= <-].
  rewrite (index_values_masked m index df idx Ei); simpl.
  rewrite (mapR_chr_values_masked m key df ks Ek); simpl.
  now rewrite mask_list_combine, zip_keys_mask, mask_list_length.
Qed.

Lemma tidy_masked (m : list bool) (index : string) (key : list string) (df : data_frame) :
  tidy index key df -> tidy index key (masked m df).
Proof.
  intros (rows & Hrows & Hna & Hnd & Hord).
  exists (mask_list m rows). split; [now apply key_rows_masked|]. split; [|split].
  - apply existsb_false. intros x Hx. rewrite <- mask_list_map in Hx.
    apply mask_list_In in Hx. revert x Hx. now apply existsb_false.
  - now apply mask_list_NoDup.
  - now apply in_order_mask.
Qed.

Lemma retail_of_tidy (df : data_frame) :
  sendable df -> tidy "Month" ["State"; "Industry"] df ->
  retail_tsibble (mk_tbl_ts df "Month" ["State"; "Industry"]).
Proof.
  intros Hs Ht. split; [exact Hs|]. split.
  - destruct Ht as (rows & Hrows & _ & _ & Hord). now exists rows.
  - simpl. apply as_tsibble_tidy; [apply Hs|exact Ht].
Qed.

Lemma isin_sent_chr (values : list string) (xs : list string) :
  isin values (PObj xs) = r_in values (RChr xs).
Proof. reflexivity. Qed.

Lemma isin_one_sent_chr (v : string) (xs : list string) :
  isin [v] (PObj xs) = r_eq v (RChr xs).
Proof.
  simpl. apply map_ext. intros x. unfold isin_str; simpl. apply orb_false_r.
Qed.

(** The mask of the R cell's [filter] is the row test on the table's rows. *)
Lemma r_filter_mask (df : data_frame) (st ind : list string) :
  rrectangular df ->
  get_col "State" df = Some (RChr st) ->
  get_col "Industry" df = Some (RChr ind) ->
  and_mask (r_in ["New South Wales"; "Victoria"] (RChr st))
           (r_eq "Department stores" (RChr ind))
  = map row_matches (rrows df).
Proof.
  intros Hrect Hst Hind.
  rewrite <- isin_sent_chr, <- isin_one_sent_chr, filter_mask_cells.
  pose proof (rview_lengths df Hrect) as Hl.
  change (pcells (PObj st)) with (rcells (RChr st)).
  change (pcells (PObj ind)) with (rcells (RChr ind)).
  rewrite <- (rows_of_get_col "State" (rview df) (rnrow df) (rcells (RChr st)) Hl)
    by (rewrite get_col_rview, Hst; reflexivity).
  rewrite <- (rows_of_get_col "Industry" (rview df) (rnrow df) (rcells (RChr ind)) Hl)
    by (rewrite get_col_rview, Hind; reflexivity).
  symmetry.
  apply (map_combine_maps (get_col "State") (get_col "Industry") cell_test).
Qed.

(** The rows the R cell's filter keeps. *)
Definition keep_of (df : data_frame) : list bool := map row_matches (rrows df).


(** The mask of lines 83-85 on the pandas frame is the mask of the R cell's
    [filter] on the tsibble it came from. *)
Lemma py_filter_sent (df : data_frame) (st ind : list string) :
  sendable df ->
  get_col "State" df = Some (RChr st) ->
  get_col "Industry" df = Some (RChr ind) ->
  py_filter (sent df) = Ok (sent (masked (keep_of df) df)).
Proof.
  intros (Hnd & _ & Hrect) Hst Hind. unfold py_filter.
  assert (Hnd' : NoDup (names (sent df))) by (unfold sent; now rewrite names_map).
  rewrite (getattr_distinct (sent df) "State" (PObj st) Hnd')
    by (unfold sent; now rewrite get_col_map, Hst).
  rewrite (getattr_distinct (sent df) "Industry" (PObj ind) Hnd')
    by (unfold sent; now rewrite get_col_map, Hind).
  unfold rbind.
  rewrite isin_sent_chr, isin_one_sent_chr, (r_filter_mask df st ind Hrect Hst Hind).
  fold (keep_of df). now rewrite sent_masked.
Qed.

Lemma key_rows_snd (df : data_frame) (index : string) (key : list string) rows idx :
  rrectangular df ->
  key_rows index key df = Ok rows ->
  index_values index df = Ok idx ->
  map snd rows = idx.
Proof.
  intros Hr Hrows Hidx. unfold key_rows in Hrows. rewrite Hidx in Hrows. simpl in Hrows.
  destruct (mapR _ key) as [ks|] eqn:Ek; simpl in Hrows; [|discriminate].
  injection Hrows as <-. apply map_snd_combine.
  assert (Hlen : List.length idx = rnrow df).
  { unfold index_values in Hidx.
    destruct (get_col index df) as [c|] eqn:Ei; [|discriminate].
    pose proof (rrectangular_In df index c Hr Ei) as Hl.
    destruct c; try discriminate; injection Hidx as <-; exact Hl. }
  rewrite Hlen. apply zip_keys_length. now apply (chr_values_length df key).
Qed.

Definition on_index (f : option Z -> option Z) (r : key_row) : key_row :=
  (fst r, f (snd r)).

Lemma combine_map_r {A B C : Type} (f : B -> C) (a : list A) (b : list B) :
  combine a (map f b) = map (fun p => (fst p, f (snd p))) (combine a b).
Proof.
  revert b; induction a as [|x a IH]; intros [|y b]; simpl; try reflexivity.
  now rewrite IH.
Qed.

Lemma mapR_ext_in {A B : Type} (f g : A -> result B) (l : list A) :
  (forall a, In a l -> f a = g a) -> mapR f l = mapR g l.
Proof.
  induction l as [|a l IH]; simpl; intros H; [reflexivity|].
  rewrite (H a) by auto. now rewrite IH by auto.
Qed.

(** The key rows of a table whose [Month] has been recomputed. *)
Lemma key_rows_set_month (key : list string) (df : data_frame)
    (f : option Z -> option Z) (idx : list (option Z)) (c : rcolumn) rows :
  ~ In "Month" key ->
  key_rows "Month" key df = Ok rows ->
  index_values "Month" df = Ok idx ->
  (c = RMth (map f idx) \/ c = RDttm (map f idx)) ->
  key_rows "Month" key (set_col "Month" c df) = Ok (map (on_index f) rows).
Proof.
  intros Hkey Hrows Hidx Hc. unfold key_rows in *. rewrite Hidx in Hrows; simpl in Hrows.
  assert (Hi : index_values "Month" (set_col "Month" c df) = Ok (map f idx)).
  { unfold index_values. rewrite get_col_set_col. now destruct Hc as [-> | ->]. }
  rewrite Hi; simpl.
  rewrite (mapR_ext_in _ (fun k => chr_values k df)).
  - destruct (mapR (fun k => chr_values k df) key) as [ks|]; simpl in *; [|discriminate].
    injection Hrows as <-. now rewrite length_map, combine_map_r.
  - intros k Hk. unfold chr_values. rewrite get_col_set_col_other; [reflexivity|].
    intros E. subst k. contradiction.
Qed.

Lemma not_Month_key : ~ In "Month" ["State"; "Industry"].
Proof. simpl. intuition discriminate. Qed.

(** When lines 91-100 return on what lines 70-78 sent, no month has become
    NaT on the way, and the table is the one that was sent. *)
Lemma to_tsibble_sent_Ok (df : data_frame) (ms : list (option Z)) (rts : tbl_ts) :
  sendable df ->
  tidy "Month" ["State"; "Industry"] df ->
  get_col "Month" df = Some (RMth ms) ->
  to_tsibble (sent df) = Ok rts ->
  rts = mk_tbl_ts df "Month" ["State"; "Industry"].
Proof.
  intros Hs Ht Hm H. rewrite (to_tsibble_sent df ms Hs Hm) in H.
  assert (Hidx : index_values "Month" df = Ok ms).
  { unfold index_values. now rewrite Hm. }
  destruct Ht as (rows & Hrows & Hna & Hnd & Hord).
  assert (Hback : map back_month ms = ms).
  { apply back_months_no_NA.
    unfold as_tsibble in H.
    rewrite (key_rows_set_month _ df back_month ms _ rows not_Month_key Hrows Hidx
               (or_introl eq_refl)) in H.
    simpl rbind in H.
    destruct (existsb is_NA (map snd (map (on_index back_month) rows))) eqn:E;
      [discriminate|].
    rewrite map_map in E. unfold on_index in E. simpl in E.
    rewrite <- (map_map snd back_month) in E.
    now rewrite (key_rows_snd df _ _ rows ms (proj2 (proj2 Hs)) Hrows Hidx) in E. }
  rewrite Hback, (set_col_same _ _ _ Hm) in H.
  rewrite as_tsibble_tidy in H.
  - now injection H as <-.
  - apply Hs.
  - exists rows. auto.
Qed.


(** Lines 70-100 on a retail tsibble: when they return, they return what the
    R cell's [filter] returns. *)
Lemma python_rts_Ok (ts rts : tbl_ts) :
  retail_tsibble ts ->
  python_rts ts = Ok rts ->
  rts = mk_tbl_ts (masked (keep_of (ts_data ts)) (ts_data ts)) "Month" ["State"; "Industry"].
Proof.
  intros Hr Hp. destruct (retail_month ts Hr) as [ms Hm].
  destruct (retail_keys ts Hr) as (st & ind & Hst & Hind).
  destruct (retail_tidy ts Hr) as [Ht _]. destruct Hr as (Hs & _).
  unfold python_rts in Hp. rewrite (to_pandas_eq ts ms Hs Hm) in Hp.
  destruct (forallb _ _); [|discriminate]. simpl rbind in Hp.
  rewrite (py_filter_sent _ st ind Hs Hst Hind) in Hp. simpl rbind in Hp.
  apply (to_tsibble_sent_Ok _ (mask_list (keep_of (ts_data ts)) ms)); auto.
  - now apply sendable_masked.
  - now apply tidy_masked.
  - unfold masked. now rewrite get_col_map, Hm.
Qed.


Lemma retail_masked (m : list bool) (ts : tbl_ts) :
  retail_tsibble ts ->
  retail_tsibble (mk_tbl_ts (masked m (ts_data ts)) "Month" ["State"; "Industry"]).
Proof.
  intros Hr. destruct (retail_tidy ts Hr) as [Ht _]. destruct Hr as (Hs & _).
  apply retail_of_tidy; [now apply sendable_masked|now apply tidy_masked].
Qed.

(** *** What reaches [fabletools.model] (lines 83-117) *)

Lemma mask_and_left {A : Type} (p : A -> bool) (xs : list A) (m : list bool) :
  Forall (fun x => p x = true) (mask_list (and_mask (map p xs) m) xs).
Proof.
  revert m; induction xs as [|x xs IH]; intros [|b m]; simpl; try constructor.
  destruct (p x) eqn:E; simpl; [destruct b; simpl|]; auto.
Qed.

Lemma mask_and_right {A : Type} (q : A -> bool) (ys : list A) (m : list bool) :
  Forall (fun y => q y = true) (mask_list (and_mask m (map q ys)) ys).
Proof.
  revert m; induction ys as [|y ys IH]; intros [|b m]; simpl; try constructor.
  destruct (q y) eqn:E; simpl; rewrite ?andb_false_r, ?andb_true_r;
    [destruct b; simpl|]; auto.
Qed.

(** X5.  The table the Python cells hand to [model] is again a retail tsibble,
    and holds only rows of New South Wales or Victoria and of department
    stores. *)
Theorem model_input_is_filtered (ts rts : tbl_ts) :
  retail_tsibble ts ->
  python_rts ts = Ok rts ->
  retail_tsibble rts
  /\ exists st ind,
       get_col "State" (ts_data rts) = Some (RChr st)
       /\ get_col "Industry" (ts_data rts) = Some (RChr ind)
       /\ Forall (fun s => s = "New South Wales" \/ s = "Victoria") st
       /\ Forall (fun i => i = "Department stores") ind.
Proof.
  intros Hr Hp.
  destruct (retail_keys ts Hr) as (st & ind & Hst & Hind).
  rewrite (python_rts_Ok ts rts Hr Hp). split; [now apply retail_masked|].
  simpl. unfold masked. rewrite !get_col_map, Hst, Hind. simpl.
  assert (Hrect : rrectangular (ts_data ts)) by apply Hr.
  unfold keep_of. rewrite <- (r_filter_mask _ st ind Hrect Hst Hind).
  eexists. eexists. split; [reflexivity|]. split; [reflexivity|]. split.
  - pose proof (mask_and_left (isin_str ["New South Wales"; "Victoria"]) st
                  (map (fun x => String.eqb x "Department stores") ind)) as H.
    revert H. apply Forall_impl. intros s Hs. unfold isin_str in Hs; simpl in Hs.
    rewrite orb_false_r in Hs. apply orb_prop in Hs as [Hs|Hs];
      apply String.eqb_eq in Hs; auto.
  - pose proof (mask_and_right (fun x => String.eqb x "Department stores") ind
                  (map (isin_str ["New South Wales"; "Victoria"]) st)) as H.
    revert H. apply Forall_impl. intros i Hi. now apply String.eqb_eq.
Qed.

(** *** The round trip (lines 70-78, then 91-100) *)

Lemma sent_months_held (ms : list (option Z)) :
  Forall pandas_month ms -> Forall (fun o => exists ns, sent_month o = Some ns) ms.
Proof. apply Forall_impl. intros o Ho. apply (pandas_month_fits o Ho). Qed.


(** *** Each conversion step on its own *)

Lemma others_set_col {C : Type} (c : C) (df : frame C) :
  others (set_col "Month" c df) = others df.
Proof.
  unfold others. induction df as [|[n c0] rest IH]; simpl; [reflexivity|].
  destruct (String.eqb_spec n "Month") as [->|Hne]; simpl.
  - rewrite ?String.eqb_refl. reflexivity.
  - destruct (String.eqb_spec n "Month"); [contradiction|]. simpl. now rewrite IH.
Qed.

Lemma others_map {C D : Type} (g : C -> D) (df : frame C) :
  others (map (fun nc => (fst nc, g (snd nc))) df)
  = map (fun nc => (fst nc, g (snd nc))) (others df).
Proof.
  unfold others. induction df as [|[n c0] rest IH]; simpl; [reflexivity|].
  destruct (String.eqb n "Month"); simpl; now rewrite IH.
Qed.

Lemma others_received (df : data_frame) :
  Forall sendable_col df ->
  others (rview (py2rpy (sent df))) = others (pview (sent df)).
Proof.
  unfold others, pview, rview, py2rpy, sent.
  induction 1 as [|[n c] rest Hc _ IH]; simpl; [reflexivity|].
  destruct (String.eqb_spec n "Month") as [->|Hne]; simpl; [exact IH|].
  rewrite IH. unfold sendable_col in Hc; simpl in Hc.
  destruct c; try reflexivity; try contradiction; congruence.
Qed.

(** A month pandas holds comes back to R as the instant that was sent. *)
Lemma received_month_fit (o : option Z) :
  pandas_month o ->
  option_map Calendar.to_POSIXct (sent_month o) = option_map Calendar.as_datetime o.
Proof.
  intros (m & -> & Hm). apply month_fits_range in Hm. unfold month_fits in Hm.
  apply andb_prop in Hm as [_ Hn]. unfold sent_month; simpl.
  destruct (Calendar.to_datetime64 (Calendar.as_datetime m)) as [ns|] eqn:E; [|discriminate].
  simpl. now rewrite (to_POSIXct_to_datetime64 _ _ E).
Qed.

Lemma received_months_fit (ms : list (option Z)) :
  Forall pandas_month ms ->
  map (option_map Calendar.to_POSIXct) (map sent_month ms)
  = map (option_map Calendar.as_datetime) ms.
Proof.
  intros H. rewrite map_map. apply map_ext_Forall.
  revert H. apply Forall_impl. apply received_month_fit.
Qed.

Lemma yearmonth_of_as_datetime (ms : list (option Z)) :
  map (option_map Calendar.yearmonth) (map (option_map Calendar.as_datetime) ms) = ms.
Proof.
  rewrite map_map. rewrite <- (map_id ms) at 2. apply map_ext.
  intros [m|]; simpl; [now rewrite yearmonth_as_datetime|reflexivity].
Qed.

(** C5.  Take any table the notebook converts: a tsibble whose columns are
    character or double, with the yearmonth column [Month] (the retail
    table, filtered or not, and the selected forecast table are of this
    kind).  Every conversion step keeps the column names and every cell
    outside [Month]; [Month] alone changes class: yearmonth, POSIXct,
    datetime64[ns], POSIXct, yearmonth.  All steps return, but for the
    bridge to pandas, which raises when a month lies outside the years of
    a Python datetime.  When the months are months pandas can hold, the
    bridge returns, no month becomes NaT and the table that comes back is
    the table that was sent.  [as_tsibble], which arranges rows, returns a
    table whose rows are distinct and already arranged as it is. *)
Theorem conversions_change_only_Month (ts : tbl_ts) (ms : list (option Z)) :
  sendable (ts_data ts) ->
  get_col "Month" (ts_data ts) = Some (RMth ms) ->
  let df0 := as_data_frame ts in
  let secs := map (option_map Calendar.as_datetime) ms in
  let df1 := set_col "Month" (RDttm secs) df0 in
  let pdf := sent df0 in
  let rdf := py2rpy pdf in
  let df2 := set_col "Month" (RMth (map back_month ms)) df0 in
  (* tsibble to data frame *)
  rview df0 = rview (ts_data ts)
  (* Month = as_datetime(Month) *)
  /\ mutate df0 "Month" (Call "lubridate::as_datetime" [Sym "Month"]) = Ok df1
  /\ names df1 = names df0
  /\ others (rview df1) = others (rview df0)
  /\ get_col "Month" df1 = Some (RDttm secs)
  (* data frame to pandas *)
  /\ rpy2py df1 = (if forallb dttm_in_datetime secs then Ok pdf else Raise OutOfRange)
  /\ names pdf = names df1
  /\ others (pview pdf) = others (rview df1)
  /\ get_col "Month" pdf = Some (PDatetime (map sent_month ms))
  (* pandas to data frame *)
  /\ names rdf = names pdf
  /\ others (rview rdf) = others (pview pdf)
  /\ get_col "Month" rdf
     = Some (RDttm (map (option_map Calendar.to_POSIXct) (map sent_month ms)))
  (* Month = yearmonth(Month) *)
  /\ mutate rdf "Month" (Call "tsibble::yearmonth" [Sym "Month"]) = Ok df2
  /\ names df2 = names rdf
  /\ others (rview df2) = others (rview rdf)
  /\ get_col "Month" df2 = Some (RMth (map back_month ms))
  (* months pandas can hold *)
  /\ (Forall pandas_month ms ->
      rpy2py df1 = Ok pdf
      /\ Forall (fun o => exists ns, sent_month o = Some ns) ms
      /\ get_col "Month" rdf = Some (RDttm secs)
      /\ df2 = df0)
  (* data frame to tsibble *)
  /\ (forall key, tidy "Month" key df0 ->
        as_tsibble df0 "Month" key = Ok (mk_tbl_ts df0 "Month" key)).
Proof.
  intros Hs Hm df0 secs df1 pdf rdf df2.
  assert (Hdf0 : df0 = ts_data ts) by reflexivity.
  destruct Hs as (Hnd & Hcols & Hrect).
  assert (Hrdf_month : get_col "Month" rdf
            = Some (RDttm (map (option_map Calendar.to_POSIXct) (map sent_month ms)))).
  { unfold rdf, pdf, py2rpy, sent. now rewrite !get_col_map, Hdf0, Hm. }
  assert (Hn1 : names df1 = names df0).
  { unfold df1. eapply names_set_col. rewrite Hdf0. exact Hm. }
  assert (Hn2 : names df2 = names df0).
  { unfold df2. eapply names_set_col. rewrite Hdf0. exact Hm. }
  assert (Hnp : names pdf = names df0) by (unfold pdf, sent; apply names_map).
  assert (Hnr : names rdf = names pdf) by (unfold rdf, py2rpy; apply names_map).
  assert (Hop : others (pview pdf) = others (rview df0)).
  { unfold pdf. rewrite Hdf0. now apply others_sent. }
  assert (Hor : others (rview rdf) = others (pview pdf)).
  { unfold rdf, pdf. rewrite Hdf0. now apply others_received. }
  assert (Ho1 : others (rview df1) = others (rview df0)).
  { unfold df1, rview. now rewrite !others_map, others_set_col. }
  assert (Ho2 : others (rview df2) = others (rview df0)).
  { unfold df2, rview. now rewrite !others_map, others_set_col. }
  assert (Hbridge : rpy2py df1
            = if forallb dttm_in_datetime secs then Ok pdf else Raise OutOfRange).
  { unfold df1, pdf, secs. rewrite Hdf0. now apply rpy2py_set_month. }
  split; [reflexivity|].
  split; [unfold df1; rewrite mutate_as_datetime, Hdf0, Hm; reflexivity|].
  split; [exact Hn1|].
  split; [exact Ho1|].
  split; [apply get_col_set_col|].
  split; [exact Hbridge|].
  split; [congruence|].
  split; [congruence|].
  split; [unfold pdf, sent; now rewrite get_col_map, Hdf0, Hm|].
  split; [exact Hnr|].
  split; [exact Hor|].
  split; [exact Hrdf_month|].
  split.
  { rewrite mutate_yearmonth, Hrdf_month. cbn [tsibble_yearmonth]. rewrite !map_map.
    change (fun x : option Z =>
              option_map Calendar.yearmonth (option_map Calendar.to_POSIXct (sent_month x)))
      with back_month.
    unfold rdf, pdf, df2. rewrite Hdf0.
    now rewrite (set_col_received _ ms _ Hnd Hcols Hm). }
  split; [congruence|].
  split; [congruence|].
  split; [apply get_col_set_col|].
  split.
  { intros Hfit.
    split; [rewrite Hbridge; unfold secs; now rewrite (months_in_datetime ms Hfit)|].
    split; [now apply sent_months_held|].
    split; [rewrite Hrdf_month; unfold secs; now rewrite (received_months_fit ms Hfit)|].
    unfold df2. rewrite (back_months_fit ms Hfit), Hdf0. now apply set_col_same. }
  intros key Ht. apply as_tsibble_tidy; [rewrite Hdf0; exact Hrect|exact Ht].
Qed.

(** *** The Python cells select and name what the R cell selects and names *)

Lemma python_model_args_eq :
  python_model_args
  = Ok [Positional (Assign "ets" (Call "ETS" [Call "box_cox" [Sym "Turnover"; Num "0.3"]]));
        Positional (Assign "arima" (Call "ARIMA" [Call "log" [Sym "Turnover"]]));
        Positional (Assign "snaive" (Call "SNAIVE" [Sym "Turnover"]))].
Proof. reflexivity. Qed.



(** *** Rows and their keys *)

Definition pchr_values (name : string) (pdf : pandas_frame) : result (list string) :=
  match get_col name pdf with
  | Some (PObj xs) => Ok xs
  | Some _ => Raise (BadClass "key")
  | None => Raise (ColumnNotFound name)
  end.

Definition pindex_values (name : string) (pdf : pandas_frame) : result (list (option Z)) :=
  match get_col name pdf with
  | Some (PDatetime xs) => Ok xs
  | Some _ => Raise (BadClass "index")
  | None => Raise (ColumnNotFound name)
  end.

(** The (key, index) tuple of each row of a pandas frame. *)
Definition p_key_rows (index : string) (key : list string) (pdf : pandas_frame)
  : result (list key_row) :=
  (idx <- pindex_values index pdf ;;
   ks <- mapR (fun k => pchr_values k pdf) key ;;
   Ok (combine (zip_keys ks (List.length idx)) idx))%result.

(** No two rows share their values in the columns [key] and in [Month]. *)
Definition distinct_r (key : list string) (df : data_frame) : Prop :=
  exists rows, key_rows "Month" key df = Ok rows /\ NoDup rows.

Definition distinct_p (key : list string) (pdf : pandas_frame) : Prop :=
  exists rows, p_key_rows "Month" key pdf = Ok rows /\ NoDup rows.

Lemma NoDup_on_index (f : option Z -> option Z) (rows : list key_row) :
  (forall a b, pandas_month a -> pandas_month b -> f a = f b -> a = b) ->
  Forall (fun r => pandas_month (snd r)) rows ->
  NoDup rows -> NoDup (map (on_index f) rows).
Proof.
  intros Hf Hfit Hnd. induction Hnd as [|r rows Hn Hnd IH]; simpl; [constructor|].
  inversion Hfit as [|? ? Hr Hrest]; subst. constructor; [|now apply IH].
  intros Hin. apply in_map_iff in Hin as (r' & Heq & Hin'). apply Hn.
  rewrite Forall_forall in Hrest. pose proof (Hrest r' Hin') as Hr'.
  destruct r as [k a], r' as [k' b]. unfold on_index in Heq. simpl in *.
  injection Heq as -> Hab. now rewrite <- (Hf b a Hr' Hr Hab).
Qed.

Lemma key_rows_fit (key : list string) (df : data_frame) (ms : list (option Z)) rows :
  key_rows "Month" key df = Ok rows ->
  get_col "Month" df = Some (RMth ms) ->
  Forall pandas_month ms ->
  Forall (fun r => pandas_month (snd r)) rows.
Proof.
  intros Hrows Hm Hfit. unfold key_rows, index_values in Hrows. rewrite Hm in Hrows.
  simpl in Hrows. destruct (mapR _ key) as [ks|]; simpl in Hrows; [|discriminate].
  injection Hrows as <-. apply Forall_forall. intros [k o] Hin. simpl.
  apply in_combine_r in Hin. rewrite Forall_forall in Hfit. now apply Hfit.
Qed.

Lemma pchr_values_sent (name : string) (df : data_frame) xs :
  chr_values name df = Ok xs -> pchr_values name (sent df) = Ok xs.
Proof.
  unfold chr_values, pchr_values, sent. rewrite get_col_map.
  destruct (get_col name df) as [[]|]; simpl; try discriminate. auto.
Qed.

Lemma mapR_pchr_values_sent (key : list string) (df : data_frame) ks :
  mapR (fun k => chr_values k df) key = Ok ks ->
  mapR (fun k => pchr_values k (sent df)) key = Ok ks.
Proof.
  revert ks; induction key as [|k key IH]; simpl; intros ks; [auto|].
  destruct (chr_values k df) as [xs|] eqn:E; [|discriminate].
  destruct (mapR (fun k0 => chr_values k0 df) key) as [rest|]; [|discriminate].
  intros [= <-]. now rewrite (pchr_values_sent k df xs E), (IH rest eq_refl).
Qed.

Lemma p_key_rows_sent (key : list string) (df : data_frame) (ms : list (option Z)) rows :
  key_rows "Month" key df = Ok rows ->
  get_col "Month" df = Some (RMth ms) ->
  p_key_rows "Month" key (sent df) = Ok (map (on_index sent_month) rows).
Proof.
  intros Hrows Hm. unfold key_rows, index_values in Hrows. rewrite Hm in Hrows.
  simpl in Hrows. unfold p_key_rows, pindex_values, sent at 1.
  rewrite get_col_map, Hm. cbn [option_map sent_col rbind].
  destruct (mapR (fun k => chr_values k df) key) as [ks|] eqn:E; simpl in *; [|discriminate].
  injection Hrows as <-. rewrite (mapR_pchr_values_sent key df ks E); simpl.
  now rewrite length_map, combine_map_r.
Qed.

Lemma chr_values_received (name : string) (df : data_frame) xs :
  chr_values name df = Ok xs -> chr_values name (py2rpy (sent df)) = Ok xs.
Proof.
  unfold chr_values, py2rpy, sent. rewrite !get_col_map.
  destruct (get_col name df) as [[]|]; simpl; try discriminate. auto.
Qed.

Lemma mapR_chr_values_received (key : list string) (df : data_frame) ks :
  mapR (fun k => chr_values k df) key = Ok ks ->
  mapR (fun k => chr_values k (py2rpy (sent df))) key = Ok ks.
Proof.
  revert ks; induction key as [|k key IH]; simpl; intros ks; [auto|].
  destruct (chr_values k df) as [xs|] eqn:E; [|discriminate].
  destruct (mapR (fun k0 => chr_values k0 df) key) as [rest|]; [|discriminate].
  intros [= <-]. now rewrite (chr_values_received k df xs E), (IH rest eq_refl).
Qed.

Lemma key_rows_received (key : list string) (df : data_frame) (ms : list (option Z)) rows :
  key_rows "Month" key df = Ok rows ->
  get_col "Month" df = Some (RMth ms) ->
  Forall pandas_month ms ->
  key_rows "Month" key (py2rpy (sent df))
  = Ok (map (on_index (option_map Calendar.as_datetime)) rows).
Proof.
  intros Hrows Hm Hfit. unfold key_rows, index_values in *. rewrite Hm in Hrows.
  simpl in Hrows. unfold py2rpy at 1, sent at 1.
  rewrite !get_col_map, Hm. cbn [option_map sent_col py2rpy_col rbind].
  rewrite (received_months_fit ms Hfit).
  destruct (mapR (fun k => chr_values k df) key) as [ks|] eqn:E; simpl in *; [|discriminate].
  injection Hrows as <-. rewrite (mapR_chr_values_received key df ks E); simpl.
  now rewrite length_map, combine_map_r.
Qed.

Lemma tidy_distinct (key : list string) (df : data_frame) :
  tidy "Month" key df -> distinct_r key df.
Proof. intros (rows & Hrows & _ & Hnd & _). now exists rows. Qed.

(** The tables of lines 70-92 made from a table with distinct rows. *)
Lemma distinct_on_the_way (key : list string) (df : data_frame) (ms : list (option Z)) :
  ~ In "Month" key ->
  get_col "Month" df = Some (RMth ms) ->
  Forall pandas_month ms ->
  distinct_r key df ->
  distinct_r key (set_col "Month" (RDttm (map (option_map Calendar.as_datetime) ms)) df)
  /\ distinct_p key (sent df)
  /\ distinct_r key (py2rpy (sent df)).
Proof.
  intros Hkey Hm Hfit (rows & Hrows & Hnd).
  assert (Hidx : index_values "Month" df = Ok ms).
  { unfold index_values. now rewrite Hm. }
  pose proof (key_rows_fit key df ms rows Hrows Hm Hfit) as Hrfit.
  assert (Hinj : forall a b : option Z, pandas_month a -> pandas_month b ->
            option_map Calendar.as_datetime a = option_map Calendar.as_datetime b -> a = b).
  { intros a b _ _. apply as_datetime_option_inj. }
  split; [|split].
  - exists (map (on_index (option_map Calendar.as_datetime)) rows). split.
    + apply (key_rows_set_month key df _ ms); auto.
    + now apply NoDup_on_index.
  - eexists. split; [apply (p_key_rows_sent key df ms rows Hrows Hm)|].
    apply NoDup_on_index; [apply sent_month_inj|exact Hrfit|exact Hnd].
  - eexists. split; [apply (key_rows_received key df ms rows Hrows Hm Hfit)|].
    now apply NoDup_on_index.
Qed.

Lemma mutate_received (df : data_frame) (ms : list (option Z)) :
  sendable df ->
  get_col "Month" df = Some (RMth ms) ->
  Forall pandas_month ms ->
  mutate (py2rpy (sent df)) "Month" (Call "tsibble::yearmonth" [Sym "Month"]) = Ok df.
Proof.
  intros (Hnd & Hs & _) Hm Hfit. rewrite mutate_yearmonth.
  unfold py2rpy at 1, sent at 1. rewrite !get_col_map, Hm.
  cbn [option_map sent_col py2rpy_col tsibble_yearmonth].
  rewrite (received_months_fit ms Hfit), yearmonth_of_as_datetime.
  now rewrite (set_col_received df ms _ Hnd Hs Hm), (set_col_same _ _ _ Hm).
Qed.

(** *** The forecast table (lines 122-133) *)

(** The layout of the fable [forecast] returns for the notebook's models:
    the key columns, the model label, the index, the forecast distribution
    under the name of the response, and its mean; keyed by State, Industry
    and .model. *)
Definition fable_of (st ind md : list string) (ms : list (option Z))
    (ds : list dist) (mean : list num) : tbl_ts :=
  mk_tbl_ts
    [("State", RChr st); ("Industry", RChr ind); (".model", RChr md);
     ("Month", RMth ms); ("Turnover", RDist ds); (".mean", RDbl mean)]
    "Month" ["State"; "Industry"; ".model"].

(** The table [select] returns in line 127, and the table shown last. *)
Definition selected_forecast (st ind md : list string) (ms : list (option Z))
    (ds : list dist) (mean : list num) : tbl_ts :=
  mk_tbl_ts
    [("State", RChr st); ("Industry", RChr ind); (".model", RChr md);
     (".mean", RDbl mean);
     ("95%_lower", RDbl (map (fun d => fst (dist_hilo 95 d)) ds));
     ("95%_upper", RDbl (map (fun d => snd (dist_hilo 95 d)) ds));
     ("Month", RMth ms)]
    "Month" ["State"; "Industry"; ".model"].

Definition shown_forecast (st ind md : list string) (ms : list (option Z))
    (ds : list dist) (mean : list num) : pandas_frame :=
  [("State", PObj st); ("Industry", PObj ind); (".model", PObj md);
   (".mean", PFloat mean);
   ("95%_lower", PFloat (map (fun d => fst (dist_hilo 95 d)) ds));
   ("95%_upper", PFloat (map (fun d => snd (dist_hilo 95 d)) ds));
   ("Month", PDatetime (map sent_month ms))].

Definition keys_eqb (a b : list string) : bool :=
  if list_eq_dec string_dec a b then true else false.


Lemma select_fable (st ind md : list string) (ms : list (option Z))
    (ds : list dist) (mean : list num) :
  (fcst_dist <- hilo (fable_of st ind md ms ds mean) 95 ;;
   fcst_dist <- unpack_hilo fcst_dist "95%" ;;
   select fcst_dist ["State"; "Industry"; ".model"; ".mean"; "95%_lower"; "95%_upper"])%result
  = Ok (selected_forecast st ind md ms ds mean).
Proof.
  unfold hilo, fable_of. cbn [ts_data dist_col rbind].
  change (level_name 95) with "95%".
  unfold unpack_hilo, selected_forecast. cbn. now rewrite !map_map.
Qed.

Lemma selected_sendable (st ind md : list string) (ms : list (option Z))
    (ds : list dist) (mean : list num) :
  NoDup (names (ts_data (selected_forecast st ind md ms ds mean)))
  /\ Forall sendable_col (ts_data (selected_forecast st ind md ms ds mean)).
Proof.
  split.
  - simpl. repeat constructor; simpl; intuition discriminate.
  - simpl. repeat constructor.
Qed.

Lemma shown_of_fable (st ind md : list string) (ms : list (option Z))
    (ds : list dist) (mean : list num) :
  Forall pandas_month ms ->
  shown_of (fable_of st ind md ms ds mean) = Ok (shown_forecast st ind md ms ds mean).
Proof.
  intros Hfit. pose proof (select_fable st ind md ms ds mean) as Hsel.
  unfold shown_of.
  destruct (hilo (fable_of st ind md ms ds mean) 95) as [h|]; simpl in Hsel; [|discriminate].
  cbn [rbind].
  destruct (unpack_hilo h "95%") as [u|]; simpl in Hsel; [|discriminate].
  cbn [rbind]. rewrite Hsel. cbn [rbind]. rewrite rl_as_datetime. cbn [rbind].
  rewrite mutate_as_datetime. unfold as_data_frame.
  destruct (selected_sendable st ind md ms ds mean) as [Hnd Hs].
  assert (Hm : get_col "Month" (ts_data (selected_forecast st ind md ms ds mean))
               = Some (RMth ms)) by reflexivity.
  rewrite Hm. cbn [lubridate_as_datetime rbind].
  rewrite (rpy2py_set_month _ ms Hnd Hs Hm), (months_in_datetime ms Hfit).
  reflexivity.
Qed.



(** *** Distinct rows, from the dataset to the forecast table *)

(** The forecast table on its way to pandas: rows distinct by State,
    Industry and Month, or by these and .model, stay so. *)
Lemma fable_rows_distinct_on_the_way (st ind md : list string) (ms : list (option Z))
    (ds : list dist) (mean : list num) (key : list string) :
  key = ["State"; "Industry"] \/ key = ["State"; "Industry"; ".model"] ->
  Forall pandas_month ms ->
  distinct_r key (ts_data (fable_of st ind md ms ds mean)) ->
  distinct_r key (ts_data (selected_forecast st ind md ms ds mean))
  /\ distinct_p key (shown_forecast st ind md ms ds mean).
Proof.
  intros Hkey Hfit Hd.
  assert (Hsel : distinct_r key (ts_data (selected_forecast st ind md ms ds mean))).
  { destruct Hd as (rows & Hrows & Hnd). exists rows. split; [|exact Hnd].
    destruct Hkey as [->| ->]; exact Hrows. }
  split; [exact Hsel|].
  assert (Hnot : ~ In "Month" key).
  { destruct Hkey as [->| ->]; simpl; intuition discriminate. }
  assert (Hm : get_col "Month" (ts_data (selected_forecast st ind md ms ds mean))
               = Some (RMth ms)) by reflexivity.
  exact (proj1 (proj2 (distinct_on_the_way key _ ms Hnot Hm Hfit Hsel))).
Qed.

(** C7.  In a retail tsibble whose months pandas can hold, no two rows share
    State, Industry and Month, and this holds in every table the notebook
    makes of it in lines 70-100: after [as_datetime], in pandas before and
    after the filter, back in R before and after [yearmonth], and in the
    tsibble [as_tsibble] returns (which it does return).  The conversions
    of the forecast table (lines 124-133) keep rows distinct as well: when
    no two rows of the fable share State, Industry and Month, or State,
    Industry, .model and Month (the key and index of a fable), the same
    holds of the selected table and of the pandas table shown last. *)
Theorem rows_stay_distinct (ts : tbl_ts) :
  retail_tsibble ts ->
  in_pandas_range (ts_data ts) ->
  distinct_r ["State"; "Industry"] (ts_data ts)
  /\ exists df1 pdf pdf' df2 rts,
       mutate (as_data_frame ts) "Month" (Call "lubridate::as_datetime" [Sym "Month"]) = Ok df1
       /\ distinct_r ["State"; "Industry"] df1
       /\ rpy2py df1 = Ok pdf
       /\ distinct_p ["State"; "Industry"] pdf
       /\ py_filter pdf = Ok pdf'
       /\ distinct_p ["State"; "Industry"] pdf'
       /\ distinct_r ["State"; "Industry"] (py2rpy pdf')
       /\ mutate (py2rpy pdf') "Month" (Call "tsibble::yearmonth" [Sym "Month"]) = Ok df2
       /\ distinct_r ["State"; "Industry"] df2
       /\ as_tsibble df2 "Month" ["State"; "Industry"] = Ok rts
       /\ distinct_r ["State"; "Industry"] (ts_data rts)
       /\ (forall st ind md ms ds mean key,
             key = ["State"; "Industry"] \/ key = ["State"; "Industry"; ".model"] ->
             Forall pandas_month ms ->
             distinct_r key (ts_data (fable_of st ind md ms ds mean)) ->
             exists out,
               shown_of (fable_of st ind md ms ds mean) = Ok out
               /\ distinct_r key (ts_data (selected_forecast st ind md ms ds mean))
               /\ distinct_p key out).
Proof.
  intros Hr Hfit.
  destruct (retail_month ts Hr) as [ms Hm].
  destruct (retail_keys ts Hr) as (st & ind & Hst & Hind).
  destruct (retail_tidy ts Hr) as [Ht _].
  destruct Hr as (Hs & _).
  specialize (Hfit ms Hm).
  pose proof (tidy_distinct _ _ Ht) as Hd0.
  set (keep := keep_of (ts_data ts)).
  pose proof (tidy_masked keep _ _ _ Ht) as Htm.
  pose proof (tidy_distinct _ _ Htm) as Hdm.
  assert (Hsm : sendable (masked keep (ts_data ts))) by now apply sendable_masked.
  assert (Hmm : get_col "Month" (masked keep (ts_data ts)) = Some (RMth (mask_list keep ms))).
  { unfold masked. now rewrite get_col_map, Hm. }
  assert (Hfitm : Forall pandas_month (mask_list keep ms)) by now apply mask_list_Forall.
  destruct (distinct_on_the_way _ _ _ not_Month_key Hm Hfit Hd0) as (Hd1 & Hd2 & _).
  destruct (distinct_on_the_way _ _ _ not_Month_key Hmm Hfitm Hdm) as (_ & Hd3 & Hd4).
  split; [exact Hd0|].
  exists (set_col "Month" (RDttm (map (option_map Calendar.as_datetime) ms)) (ts_data ts)),
         (sent (ts_data ts)), (sent (masked keep (ts_data ts))),
         (masked keep (ts_data ts)),
         (mk_tbl_ts (masked keep (ts_data ts)) "Month" ["State"; "Industry"]).
  split; [rewrite mutate_as_datetime; unfold as_data_frame; now rewrite Hm|].
  split; [exact Hd1|].
  split.
  { rewrite (rpy2py_set_month _ ms (proj1 Hs) (proj1 (proj2 Hs)) Hm).
    now rewrite (months_in_datetime ms Hfit). }
  split; [exact Hd2|].
  split; [apply (py_filter_sent _ st ind Hs Hst Hind)|].
  split; [exact Hd3|].
  split; [exact Hd4|].
  split; [now apply (mutate_received _ (mask_list keep ms))|].
  split; [exact Hdm|].
  split; [apply as_tsibble_tidy; [apply Hsm|exact Htm]|].
  split; [exact Hdm|].
  intros st0 ind0 md ms0 ds mean key Hkey Hfit0 Hd.
  exists (shown_forecast st0 ind0 md ms0 ds mean).
  split; [now apply shown_of_fable|].
  now apply fable_rows_distinct_on_the_way.
Qed.

(** *** The Python cells on the libraries' answers *)

Lemma rl_ets :
  rl "ets=ETS(box_cox(Turnover, 0.3))"
  = Ok (Assign "ets" (Call "ETS" [Call "box_cox" [Sym "Turnover"; Num "0.3"]])).
Proof. reflexivity. Qed.

Lemma rl_arima :
  rl "arima = ARIMA(log(Turnover))"
  = Ok (Assign "arima" (Call "ARIMA" [Call "log" [Sym "Turnover"]])).
Proof. reflexivity. Qed.

Lemma rl_snaive :
  rl "snaive = SNAIVE(Turnover)" = Ok (Assign "snaive" (Call "SNAIVE" [Sym "Turnover"])).
Proof. reflexivity. Qed.

(** The cells between two displays, on the libraries' answers, are the cells
    taken one by one. *)
Lemma cells_48_85_fable (ts : tbl_ts) :
  cells_48_85 (fable_calls ts) = (pdf <- to_pandas ts ;; py_filter pdf)%result.
Proof.
  unfold cells_48_85, fable_calls.
  cbn [all_of rbind call_import call_importr call_r call_as_data_frame call_rl call_mutate
       call_rpy2py call_getattr call_isin call_and call_getitem
       T_ts T_df T_pdf T_series T_mask T_mable T_lang T_strv].
  rewrite String.eqb_refl.
  unfold to_pandas, py_filter. rewrite rl_as_datetime. cbn [rbind].
  destruct (mutate (as_data_frame ts) "Month" _) as [df1|]; cbn [rbind]; [|reflexivity].
  destruct (rpy2py df1) as [pdf|]; cbn [rbind]; [|reflexivity].
  destruct (getattr pdf "State") as [state|]; cbn [rbind]; [|reflexivity].
  destruct (getattr pdf "Industry") as [industry|]; reflexivity.
Qed.

Lemma cells_91_100_fable (ts : tbl_ts) (pdf : pandas_frame) :
  cells_91_100 (fable_calls ts) pdf = to_tsibble pdf.
Proof.
  unfold cells_91_100, fable_calls, to_tsibble.
  cbn [rbind call_py2rpy call_rl call_mutate call_StrVector call_as_tsibble
       T_ts T_df T_pdf T_series T_mask T_mable T_lang T_strv].
  rewrite rl_yearmonth. cbn [rbind].
  destruct (mutate (py2rpy pdf) "Month" _) as [df2|]; reflexivity.
Qed.

Lemma cells_112_133_fable (ts rts : tbl_ts) :
  cells_112_133 (fable_calls ts) rts
  = (args <- python_model_args ;;
     r_models <- fabletools_model rts args ;;
     r_forecast <- fabletools_forecast r_models "2 years" ;;
     shown_of r_forecast)%result.
Proof.
  unfold cells_112_133, fable_calls.
  cbn [rbind call_rl call_mutate call_rpy2py call_as_data_frame call_model call_forecast
       call_hilo call_unpack_hilo call_select
       T_ts T_df T_pdf T_series T_mask T_mable T_lang T_strv].
  rewrite rl_ets, rl_arima, rl_snaive, python_model_args_eq. cbn [rbind map].
  destruct (fabletools_model rts _) as [m|]; cbn [rbind]; [|reflexivity].
  destruct (fabletools_forecast m "2 years") as [fbl|]; cbn [rbind]; [|reflexivity].
  unfold shown_of.
  destruct (hilo fbl 95) as [h|]; cbn [rbind]; [|reflexivity].
  destruct (unpack_hilo h "95%") as [u|]; cbn [rbind]; [|reflexivity].
  destruct (select u _) as [sel|]; cbn [rbind]; [|reflexivity].
  rewrite rl_as_datetime. cbn [rbind]. reflexivity.
Qed.

End Tables.

(** ** Errors in the Python cells *)

(** The program of the cells is its three stretches of calls with the
    displays of lines 86, 105 and 137 in between. *)
Lemma run_notebook_by_cells (C : Calls) :
  run (notebook C)
  = match cells_48_85 C with
    | Raise e => (Raise e, [])
    | Ok pdf =>
        match cells_91_100 C pdf with
        | Raise e => (Raise e, [ShownFrame pdf])
        | Ok rts =>
            match cells_112_133 C rts with
            | Raise e => (Raise e, [ShownFrame pdf; Printed rts])
            | Ok out => (Ok out, [ShownFrame pdf; Printed rts; ShownFrame out])
            end
        end
    end.
Proof.
  unfold notebook, cells_48_85, cells_91_100, cells_112_133.
  cbn [each all_of run rbind].
  repeat match goal with
         | |- context [match ?r with Ok _ => _ | Raise _ => _ end] =>
             destruct r; cbn [run rbind]
         end;
    reflexivity.
Qed.

(** C8 (amended).  The Python cells hold no handler.  They raise an error
    [e] exactly when a call raises it with all calls before it returned,
    and what they have displayed by then is decided by where that call
    stands: nothing when it is a call of lines 48-85; the filtered pandas
    table that these lines returned (line 86) when it is a call of lines
    91-100; that table and the tsibble that lines 91-100 returned, printed
    by line 105, when it is a call of lines 112-133.  The forecast table is
    then neither returned nor shown. *)
Theorem notebook_raises_what_a_call_raises
    (C : Calls) (e : error) (out : list (shown C)) :
  run (notebook C) = (Raise e, out) <->
  (cells_48_85 C = Raise e /\ out = [])
  \/ (exists pdf,
        cells_48_85 C = Ok pdf
        /\ cells_91_100 C pdf = Raise e
        /\ out = [ShownFrame pdf])
  \/ (exists pdf rts,
        cells_48_85 C = Ok pdf
        /\ cells_91_100 C pdf = Ok rts
        /\ cells_112_133 C rts = Raise e
        /\ out = [ShownFrame pdf; Printed rts]).
Proof.
  rewrite run_notebook_by_cells. split.
  - destruct (cells_48_85 C) as [pdf|e1] eqn:E1.
    + destruct (cells_91_100 C pdf) as [rts|e2] eqn:E2.
      * destruct (cells_112_133 C rts) as [res|e3] eqn:E3; [discriminate|].
        intros [= <- <-]. right. right. exists pdf, rts. auto.
      * intros [= <- <-]. right. left. exists pdf. auto.
    + intros [= <- <-]. now left.
  - intros [[-> ->]|[(pdf & -> & -> & ->)|(pdf & rts & -> & -> & -> & ->)]]; reflexivity.
Qed.

(** X13.  Whatever the libraries answer, when the Python cells return a table
    they have displayed three things, in this order: a pandas table
    (line 86), a printed tsibble (line 105) and the returned table
    (line 137). *)
Theorem notebook_shows_what_it_returns
    (C : Calls) (pdf : T_pdf C) (out : list (shown C)) :
  run (notebook C) = (Ok pdf, out) ->
  exists filtered rts, out = [ShownFrame filtered; Printed rts; ShownFrame pdf].
Proof.
  rewrite run_notebook_by_cells.
  destruct (cells_48_85 C) as [filtered|]; [|discriminate].
  destruct (cells_91_100 C filtered) as [rts|]; [|discriminate].
  destruct (cells_112_133 C rts) as [res|]; [|discriminate].
  intros [= <- <-]. eauto.
Qed.

(** ** A small retail table, and the theorems at it *)

Module Sample.

(** Six rows of four series in tsibble's order, November and December
    2018; turnover in tenths. *)
Definition aus_retail : @tbl_ts Z Z :=
  mk_tbl_ts
    [("State", RChr ["New South Wales"; "New South Wales"; "New South Wales";
                     "Queensland"; "Victoria"; "Victoria"]);
     ("Industry", RChr ["Department stores"; "Department stores"; "Food retailing";
                        "Department stores"; "Department stores"; "Department stores"]);
     ("Series ID", RChr ["A3349790V"; "A3349790V"; "A3349335T";
                         "A3349329L"; "A3349556W"; "A3349556W"]);
     ("Month", RMth [Some 586; Some 587; Some 587; Some 587; Some 586; Some 587]%Z);
     ("Turnover", RDbl [5714; 8312; 23109; 3011; 4217; 6230]%Z)]
    "Month" ["State"; "Industry"].


(** Stand-ins for what the notebook does not decide: a yearmonth is stored
    as the day number of its first day, the bridge refuses list-like
    columns. *)
Definition yearmonth_double (o : option Z) : Z :=
  match o with
  | Some m => (Calendar.as_datetime m / 86400)%Z
  | None => 0%Z
  end.

Definition rpy2py_vctrs (c : @rcolumn Z Z) : result (@pcolumn Z) :=
  Raise (BadClass "rpy2py").

(** Stand-ins for fabletools: a mable lists the series with their last
    month and last value, and the labels the models were written with; the
    forecast of a series repeats its last value for 24 months. *)
Definition mable : Type := (list (list string * Z * Z) * list string)%type.

Definition last_of (k : list string) (rows : list (list string * (Z * Z))) : Z * Z :=
  fold_left (fun acc r => if keys_eqb (fst r) k then snd r else acc) rows (0, 0)%Z.

Definition model (ts : @tbl_ts Z Z) (args : list model_arg) : result mable :=
  match key_rows "Month" (ts_key ts) (ts_data ts), get_col "Turnover" (ts_data ts) with
  | Ok rows, Some (RDbl xs) =>
      let obs := combine (map fst rows)
                         (combine (map (fun r => match snd r with
                                                 | Some m => m
                                                 | None => 0%Z
                                                 end) rows) xs) in
      Ok (map (fun k => (k, fst (last_of k obs), snd (last_of k obs)))
              (nodup (list_eq_dec string_dec) (map fst rows)),
          flat_map (fun a => match written a with
                             | Some xd => [fst xd]
                             | None => []
                             end) args)
  | Raise e, _ => Raise e
  | _, _ => Raise (External "object 'Turnover' not found")
  end.

Definition failing_model (ts : @tbl_ts Z Z) (args : list model_arg) : result mable :=
  Raise (External "could not find function ETS").

Definition forecast (m : mable) (h : string) : result (@tbl_ts Z Z) :=
  let cells :=
    flat_map (fun s =>
      flat_map (fun label =>
        map (fun i => (fst (fst s), label, (snd (fst s) + Z.of_nat i)%Z, snd s)) (seq 1 24))
        (snd m))
      (fst m) in
  Ok (fable_of (map (fun c => nth 0 (fst (fst (fst c))) "") cells)
               (map (fun c => nth 1 (fst (fst (fst c))) "") cells)
               (map (fun c => snd (fst (fst c))) cells)
               (map (fun c => Some (snd (fst c))) cells)
               (map snd cells)
               (map snd cells)).

Definition dist_hilo (level : nat) (d : Z) : Z * Z := (d - 100, d + 100)%Z.

Definition calls : Calls :=
  fable_calls yearmonth_double rpy2py_vctrs model forecast dist_hilo aus_retail.

Definition failing_calls : Calls :=
  fable_calls yearmonth_double rpy2py_vctrs failing_model forecast dist_hilo aus_retail.

Definition pdf : @pandas_frame Z :=
  [("State", PObj ["New South Wales"; "Victoria"; "Queensland"; "Victoria"]);
   ("Industry", PObj ["Department stores"; "Food retailing"; "Department stores";
                      "Department stores"]);
   ("Turnover", PFloat [5714; 8312; 4217; 6230]%Z)].

(** The tables of the cells on [aus_retail]. *)
Definition as_pandas : @pandas_frame Z :=
  Eval vm_compute in
    match to_pandas yearmonth_double rpy2py_vctrs aus_retail with
    | Ok p => p
    | Raise _ => []
    end.

Definition filtered : @pandas_frame Z :=
  Eval vm_compute in
    match py_filter as_pandas with
    | Ok p => p
    | Raise _ => []
    end.

Definition rts : @tbl_ts Z Z :=
  Eval vm_compute in
    match to_tsibble filtered with
    | Ok t => t
    | Raise _ => mk_tbl_ts [] "" []
    end.

Definition r_models : mable :=
  Eval vm_compute in
    match (args <- python_model_args ;; model rts args)%result with
    | Ok m => m
    | Raise _ => ([], [])
    end.








Definition forecast_pdf : @pandas_frame Z :=
  Eval vm_compute in
    match (fbl <- forecast r_models "2 years" ;;
           shown_of yearmonth_double rpy2py_vctrs dist_hilo fbl)%result with
    | Ok p => p
    | Raise _ => []
    end.

End Sample.

Lemma sample_is_retail : retail_tsibble Sample.aus_retail.
Proof.
  split; [split; [|split]|split].
  - simpl. repeat constructor; simpl; intuition discriminate.
  - simpl. repeat constructor.
  - repeat constructor.
  - eexists. split; reflexivity.
  - reflexivity.
Qed.


Ltac fits :=
  repeat constructor;
  eexists; (split; [reflexivity|]);
  unfold Calendar.first_month, Calendar.last_month; lia.

Lemma sample_in_range : in_pandas_range (ts_data Sample.aus_retail).
Proof. intros ms H. simpl in H. injection H as <-. fits. Qed.

Lemma sample_rts_is_retail : retail_tsibble Sample.rts.
Proof.
  split; [split; [|split]|split].
  - simpl. repeat constructor; simpl; intuition discriminate.
  - simpl. repeat constructor.
  - repeat constructor.
  - eexists. split; reflexivity.
  - reflexivity.
Qed.

Lemma sample_python_rts :
  python_rts Sample.yearmonth_double Sample.rpy2py_vctrs Sample.aus_retail = Ok Sample.rts.
Proof. vm_compute. reflexivity. Qed.

Lemma sample_filter : py_filter Sample.as_pandas = Ok Sample.filtered.
Proof. vm_compute. reflexivity. Qed.





(** The cells on [aus_retail], with fabletools answering and failing. *)
Lemma sample_cells_48_85 : cells_48_85 Sample.calls = Ok Sample.filtered.
Proof. unfold Sample.calls. rewrite cells_48_85_fable. vm_compute. reflexivity. Qed.

Lemma sample_cells_91_100 : cells_91_100 Sample.calls Sample.filtered = Ok Sample.rts.
Proof. unfold Sample.calls. rewrite cells_91_100_fable. vm_compute. reflexivity. Qed.

Lemma sample_cells_112_133 :
  cells_112_133 Sample.calls Sample.rts = Ok Sample.forecast_pdf.
Proof. unfold Sample.calls. rewrite cells_112_133_fable. vm_compute. reflexivity. Qed.

Lemma failing_cells_48_85 : cells_48_85 Sample.failing_calls = Ok Sample.filtered.
Proof. unfold Sample.failing_calls. rewrite cells_48_85_fable. vm_compute. reflexivity. Qed.

Lemma failing_cells_91_100 :
  cells_91_100 Sample.failing_calls Sample.filtered = Ok Sample.rts.
Proof. unfold Sample.failing_calls. rewrite cells_91_100_fable. vm_compute. reflexivity. Qed.

Lemma failing_cells_112_133 :
  cells_112_133 Sample.failing_calls Sample.rts
  = Raise (External "could not find function ETS").
Proof. unfold Sample.failing_calls. rewrite cells_112_133_fable. reflexivity. Qed.

Lemma sample_run :
  run (notebook Sample.calls)
  = (Ok Sample.forecast_pdf,
     [ShownFrame (C := Sample.calls) Sample.filtered;
      Printed (C := Sample.calls) Sample.rts;
      ShownFrame (C := Sample.calls) Sample.forecast_pdf]).
Proof.
  rewrite run_notebook_by_cells, sample_cells_48_85, sample_cells_91_100.
  now rewrite sample_cells_112_133.
Qed.

Lemma sample_run_failing :
  run (notebook Sample.failing_calls)
  = (Raise (External "could not find function ETS"),
     [ShownFrame (C := Sample.failing_calls) Sample.filtered;
      Printed (C := Sample.failing_calls) Sample.rts]).
Proof.
  rewrite run_notebook_by_cells, failing_cells_48_85, failing_cells_91_100.
  now rewrite failing_cells_112_133.
Qed.

(** ** The theorems at the sample tables *)





Lemma py_filter_keeps_exactly_the_matching_rows_witness :
  exists out,
    py_filter Sample.pdf = Ok out
    /\ prows (dist := Z) out = filter row_matches (prows Sample.pdf)
    /\ pnrow out = 2.
Proof.
  assert (Hrect : @rectangular Z Sample.pdf) by (repeat constructor).
  assert (Hnd : NoDup (names Sample.pdf))
    by (simpl; repeat constructor; simpl; intuition discriminate).
  assert (Hst : get_col "State" Sample.pdf <> None) by discriminate.
  assert (Hind : get_col "Industry" Sample.pdf <> None) by discriminate.
  destruct (@py_filter_keeps_exactly_the_matching_rows Z Z Sample.pdf Hrect Hnd Hst Hind)
    as (out & Hout & Hrows & _).
  exists out. split; [exact Hout|]. split; [exact Hrows|].
  vm_compute in Hout. injection Hout as <-. reflexivity.
Defined.

Lemma conversions_change_only_Month_witness :
  rpy2py Sample.yearmonth_double Sample.rpy2py_vctrs
    (set_col "Month"
       (RDttm (map (option_map Calendar.as_datetime)
                   [Some 586; Some 587; Some 587; Some 587; Some 586; Some 587]%Z))
       (as_data_frame Sample.aus_retail))
  = Ok (sent (as_data_frame Sample.aus_retail))
  /\ others (pview (sent (as_data_frame Sample.aus_retail)))
     = others (rview (as_data_frame Sample.aus_retail))
  /\ mutate (py2rpy (sent (as_data_frame Sample.aus_retail))) "Month"
       (Call "tsibble::yearmonth" [Sym "Month"])
     = Ok (as_data_frame Sample.aus_retail).
Proof.
  assert (Hfit : Forall pandas_month
                   [Some 586; Some 587; Some 587; Some 587; Some 586; Some 587]%Z) by fits.
  destruct (conversions_change_only_Month Sample.yearmonth_double Sample.rpy2py_vctrs
              Sample.aus_retail _ (proj1 sample_is_retail) eq_refl)
    as (_ & _ & _ & H4 & _ & _ & _ & H8 & _ & _ & _ & _ & H13 & _ & _ & _ & Hin & _).
  destruct (Hin Hfit) as (Hb & _ & _ & Hback).
  split; [exact Hb|]. split; [congruence|].
  exact (eq_trans H13 (f_equal Ok Hback)).
Defined.


Lemma rows_stay_distinct_witness :
  distinct_r ["State"; "Industry"] (ts_data Sample.aus_retail)
  /\ exists pdf rts,
       py_filter Sample.as_pandas = Ok pdf
       /\ distinct_p ["State"; "Industry"] pdf
       /\ to_tsibble (dist := Z) pdf = Ok rts
       /\ distinct_r ["State"; "Industry"] (ts_data rts).
Proof.
  destruct (rows_stay_distinct Sample.yearmonth_double Sample.rpy2py_vctrs Sample.dist_hilo
              Sample.aus_retail sample_is_retail sample_in_range)
    as (H0 & df1 & pdf & pdf' & df2 & rts & Hm1 & _ & Hb & _ & Hf & Hd & _ & Hm2 & _
        & Ht & Hdr & _).
  split; [exact H0|].
  exists pdf', rts.
  assert (Hpdf : pdf = Sample.as_pandas).
  { vm_compute in Hm1. injection Hm1 as <-. vm_compute in Hb. now injection Hb as <-. }
  subst pdf.
  split; [exact Hf|]. split; [exact Hd|]. split; [|exact Hdr].
  unfold to_tsibble. rewrite rl_yearmonth. cbn [rbind]. rewrite Hm2. exact Ht.
Defined.

Lemma notebook_raises_what_a_call_raises_witness :
  run (notebook Sample.failing_calls)
  = (Raise (External "could not find function ETS"),
     [ShownFrame (C := Sample.failing_calls) Sample.filtered;
      Printed (C := Sample.failing_calls) Sample.rts]).
Proof.
  apply (proj2 (notebook_raises_what_a_call_raises Sample.failing_calls _ _)).
  right. right. exists Sample.filtered, Sample.rts.
  split; [exact failing_cells_48_85|].
  split; [exact failing_cells_91_100|].
  split; [exact failing_cells_112_133|reflexivity].
Defined.

(** C8 (counterexample).  [model] raises on the sample: the error reaches the
    caller, after the filtered table and the tsibble have been displayed. *)
Lemma notebook_has_displayed_before_model_raises :
  exists out,
    run (notebook Sample.failing_calls)
    = (Raise (External "could not find function ETS"), out)
    /\ out = [ShownFrame (C := Sample.failing_calls) Sample.filtered;
              Printed (C := Sample.failing_calls) Sample.rts]
    /\ out <> [].
Proof.
  eexists. split; [exact sample_run_failing|]. split; [reflexivity|discriminate].
Qed.

Lemma py_filter_idempotent_witness :
  py_filter Sample.filtered = Ok Sample.filtered.
Proof.
  assert (Hrect : @rectangular Z Sample.as_pandas) by (repeat constructor).
  exact (proj1 (@py_filter_idempotent Z Z Sample.as_pandas Sample.filtered
                  Hrect sample_filter)).
Defined.

Lemma model_input_is_filtered_witness : retail_tsibble Sample.rts.
Proof.
  exact (proj1 (model_input_is_filtered Sample.yearmonth_double Sample.rpy2py_vctrs
                  Sample.aus_retail Sample.rts sample_is_retail sample_python_rts)).
Defined.

Lemma notebook_shows_what_it_returns_witness :
  exists filtered rts,
    snd (run (notebook Sample.calls))
    = [ShownFrame (C := Sample.calls) filtered;
       Printed (C := Sample.calls) rts;
       ShownFrame (C := Sample.calls) Sample.forecast_pdf].
Proof.
  destruct (notebook_shows_what_it_returns Sample.calls _ _ sample_run)
    as (filtered & rts & H).
  exists filtered, rts. rewrite sample_run. exact H.
Defined.
